(** * TabSaver: the popup controller of [popup.js], embedded and verified

    The popup keeps a module-level array [sessions], mirrors it wholesale
    into [chrome.storage.local] under the key [sessions], and reacts to four
    user actions: save, open, delete and rename.  Every handler below is a
    line-by-line transcription of the JavaScript function of the same name
    into a small state-and-exception monad over the popup's world (the
    in-memory variables, the extension storage, the relevant DOM fields and
    a trace of the observable effects).  Whatever the browser answers to a
    host call (a promise resolving or rejecting, the clock, the answer to
    [confirm]) is an explicit argument of the handler. *)

From Stdlib Require Import ZArith NArith Ascii String Lia.
From stdpp Require Import base option list strings pretty.

Local Open Scope Z_scope.
Local Open Scope list_scope.

(** ** JavaScript strings *)

Module Js.

(** A JavaScript string is a sequence of UTF-16 code units. *)
Definition str := list N.

(** An ASCII literal of the source, as code units. *)
Definition lit (s : string) : str :=
  N_of_ascii <$> String.list_ascii_of_string s.

(** The code unit of the double quote. *)
Definition dquote : N := 34%N.

(** ECMAScript [WhiteSpace] and [LineTerminator] code points: what
    [String.prototype.trim] strips. *)
Definition is_whitespace (c : N) : bool :=
  ((9 <=? c) && (c <=? 13) ||
   (c =? 32) || (c =? 160) || (c =? 5760) ||
   (8192 <=? c) && (c <=? 8202) ||
   (c =? 8232) || (c =? 8233) || (c =? 8239) || (c =? 8287) ||
   (c =? 12288) || (c =? 65279))%N.

Fixpoint trimStart (s : str) : str :=
  match s with
  | c :: s' => if is_whitespace c then trimStart s' else s
  | [] => []
  end.

Definition trimEnd (s : str) : str := reverse (trimStart (reverse s)).

(** [s.trim()] *)
Definition trim (s : str) : str := trimEnd (trimStart s).

(** [!s] on a string: only the empty string is falsy. *)
Definition falsy (s : str) : bool :=
  match s with [] => true | _ :: _ => false end.

(** A blank or whitespace-only string. *)
Definition blank (s : str) : Prop :=
  Forall (λ c, is_whitespace c = true) s.

(** [`${n}`] for a non-negative integer. *)
Definition of_nat (n : nat) : str := lit (pretty n).

End Js.

(** ** Data model *)

(** One saved tab: [{ title: tab.title, url: tab.url }]. *)
Record TabRecord := { title : Js.str; url : Js.str }.

(** A session object: [{ name, tabs, timestamp, tabCount }]. *)
Record Session := {
  name : Js.str;
  tabs : list TabRecord;
  timestamp : Z;
  tabCount : nat
}.

(** [sessions[index].name = newName]: the one field a rename assigns. *)
Definition set_name (newName : Js.str) (s : Session) : Session :=
  {| name := newName; tabs := tabs s; timestamp := timestamp s;
     tabCount := tabCount s |}.

(** A tab as [chrome.tabs.query] reports it; the popup reads two fields. *)
Record ChromeTab := {
  tab_id : Z;
  tab_index : nat;
  tab_active : bool;
  tab_pinned : bool;
  tab_title : Js.str;
  tab_url : Js.str
}.

(** [chrome.storage.local]: the two keys the extension uses; [None] is a key
    that has never been written. *)
Record Storage := {
  stored_sessions : option (list Session);
  stored_darkMode : option bool
}.

(** A session card of the rendered list. *)
Record Card := {
  card_timestamp : Z;
  card_name : Js.str;
  card_tabCount : nat
}.

Inductive FeedbackType := success | error.

(** What a rejected promise carries. *)
Definition HostError := Js.str.

(** Observable effects, in the order they happen. *)
Inductive Event :=
  | ConsoleError (message : Js.str) (detail : Z + HostError)
  | Feedback (message : Js.str) (type : FeedbackType)
  | ConfirmPrompt (message : Js.str) (answer : bool)
  | StorageSetSessions (value : list Session)
  | TabCreateRequested (tab_url : Js.str) (active : bool)
  | TabCreateSettled (resolved : bool).

(** The popup's world. *)
Record Popup := {
  sessions : list Session;              (* let sessions = [] *)
  currentRenameTimestamp : option Z;    (* null or a timestamp *)
  storage : Storage;                    (* chrome.storage.local *)
  sessionNameInput : Js.str;            (* #sessionNameInput .value *)
  renameInput : Js.str;                 (* #renameInput .value *)
  renameModalHidden : bool;             (* #renameModal has class hidden *)
  emptyStateHidden : bool;              (* #emptyState has class hidden *)
  cards : list Card;                    (* .session-card, top to bottom *)
  trace : list Event                    (* effects so far, oldest first *)
}.

Definition with_sessions (v : list Session) (p : Popup) : Popup :=
  {| sessions := v; currentRenameTimestamp := currentRenameTimestamp p;
     storage := storage p; sessionNameInput := sessionNameInput p;
     renameInput := renameInput p; renameModalHidden := renameModalHidden p;
     emptyStateHidden := emptyStateHidden p; cards := cards p;
     trace := trace p |}.

Definition with_currentRenameTimestamp (v : option Z) (p : Popup) : Popup :=
  {| sessions := sessions p; currentRenameTimestamp := v;
     storage := storage p; sessionNameInput := sessionNameInput p;
     renameInput := renameInput p; renameModalHidden := renameModalHidden p;
     emptyStateHidden := emptyStateHidden p; cards := cards p;
     trace := trace p |}.

Definition with_storage (v : Storage) (p : Popup) : Popup :=
  {| sessions := sessions p; currentRenameTimestamp := currentRenameTimestamp p;
     storage := v; sessionNameInput := sessionNameInput p;
     renameInput := renameInput p; renameModalHidden := renameModalHidden p;
     emptyStateHidden := emptyStateHidden p; cards := cards p;
     trace := trace p |}.

Definition with_sessionNameInput (v : Js.str) (p : Popup) : Popup :=
  {| sessions := sessions p; currentRenameTimestamp := currentRenameTimestamp p;
     storage := storage p; sessionNameInput := v;
     renameInput := renameInput p; renameModalHidden := renameModalHidden p;
     emptyStateHidden := emptyStateHidden p; cards := cards p;
     trace := trace p |}.

Definition with_renameInput (v : Js.str) (p : Popup) : Popup :=
  {| sessions := sessions p; currentRenameTimestamp := currentRenameTimestamp p;
     storage := storage p; sessionNameInput := sessionNameInput p;
     renameInput := v; renameModalHidden := renameModalHidden p;
     emptyStateHidden := emptyStateHidden p; cards := cards p;
     trace := trace p |}.

Definition with_renameModalHidden (v : bool) (p : Popup) : Popup :=
  {| sessions := sessions p; currentRenameTimestamp := currentRenameTimestamp p;
     storage := storage p; sessionNameInput := sessionNameInput p;
     renameInput := renameInput p; renameModalHidden := v;
     emptyStateHidden := emptyStateHidden p; cards := cards p;
     trace := trace p |}.

Definition with_view (hidden : bool) (cs : list Card) (p : Popup) : Popup :=
  {| sessions := sessions p; currentRenameTimestamp := currentRenameTimestamp p;
     storage := storage p; sessionNameInput := sessionNameInput p;
     renameInput := renameInput p; renameModalHidden := renameModalHidden p;
     emptyStateHidden := hidden; cards := cs;
     trace := trace p |}.

Definition with_trace (v : list Event) (p : Popup) : Popup :=
  {| sessions := sessions p; currentRenameTimestamp := currentRenameTimestamp p;
     storage := storage p; sessionNameInput := sessionNameInput p;
     renameInput := renameInput p; renameModalHidden := renameModalHidden p;
     emptyStateHidden := emptyStateHidden p; cards := cards p;
     trace := v |}.

(** The popup as the browser opens it: the module-level initialisers, the
    static HTML, and whatever the extension storage holds. *)
Definition opened (disk : Storage) : Popup :=
  {| sessions := []; currentRenameTimestamp := None; storage := disk;
     sessionNameInput := []; renameInput := []; renameModalHidden := true;
     emptyStateHidden := false; cards := []; trace := [] |}.

Definition empty_storage : Storage :=
  {| stored_sessions := None; stored_darkMode := None |}.

(** ** The monad of the handlers: state, and exceptions for [try]/[catch] *)

Inductive outcome (A : Type) :=
  | Done (a : A)
  | Thrown (e : HostError).
Arguments Done {A} a.
Arguments Thrown {A} e.

Definition M (A : Type) : Type := Popup → outcome A * Popup.

Global Instance M_ret : MRet M := λ A a p, (Done a, p).

Global Instance M_bind : MBind M := λ A B k m p,
  match m p with
  | (Done a, p') => k a p'
  | (Thrown e, p') => (Thrown e, p')
  end.

Definition throw {A} (e : HostError) : M A := λ p, (Thrown e, p).

(** [try { body } catch (error) { handler }] *)
Definition try_catch (body : M unit) (handler : HostError → M unit) : M unit :=
  λ p, match body p with
       | (Done a, p') => (Done a, p')
       | (Thrown e, p') => handler e p'
       end.

Definition gets {A} (f : Popup → A) : M A := λ p, (Done (f p), p).
Definition modify (f : Popup → Popup) : M unit := λ p, (Done tt, f p).
Definition emit (e : Event) : M unit :=
  modify (λ p, with_trace (trace p ++ [e]) p).

(** The world a handler leaves behind. *)
Definition exec {A} (m : M A) (p : Popup) : Popup := snd (m p).

(** How a handler ended: no handler of the popup lets an exception out. *)
Definition result {A} (m : M A) (p : Popup) : outcome A := fst (m p).

(** The settlement of a promise of the host. *)
Inductive reply (A : Type) :=
  | Resolved (a : A)
  | Rejected (e : HostError).
Arguments Resolved {A} a.
Arguments Rejected {A} e.

(** [await promise] *)
Definition await {A} (r : reply A) : M A :=
  match r with
  | Resolved a => mret a
  | Rejected e => throw e
  end.

(** ** Helpers of the popup and calls into the host *)

(** [showFeedback(message, type)]: a toast is appended to the page. *)
Definition showFeedback (message : Js.str) (type : FeedbackType) : M unit :=
  emit (Feedback message type).

(** [console.error(message, detail)] *)
Definition console_error (message : Js.str) (detail : Z + HostError) : M unit :=
  emit (ConsoleError message detail).

(** [confirm(message)]: the blocking prompt and the user's answer. *)
Definition confirm (answer : bool) (message : Js.str) : M bool :=
  emit (ConfirmPrompt message answer);; mret answer.

(** [await chrome.tabs.query({ currentWindow: true })] *)
Definition chrome_tabs_query (r : reply (list ChromeTab)) : M (list ChromeTab) :=
  await r.

(** [await chrome.storage.local.set({ sessions: value })]: a resolved write
    replaces the whole stored list; a rejected one writes nothing. *)
Definition chrome_storage_local_set (r : reply unit) (value : list Session)
  : M unit :=
  await r;;
  modify (λ p, with_storage
                 {| stored_sessions := Some value;
                    stored_darkMode := stored_darkMode (storage p) |} p);;
  emit (StorageSetSessions value).

(** [await chrome.storage.local.get(['sessions'])], then [result.sessions]:
    [None] is [undefined]. *)
Definition chrome_storage_local_get (r : reply unit)
  : M (option (list Session)) :=
  await r;; gets (λ p, stored_sessions (storage p)).

(** [chrome.tabs.create({ url, active })] issues the request and hands back
    its promise. *)
Definition chrome_tabs_create (r : reply unit) (u : Js.str) (active : bool)
  : M (reply unit) :=
  emit (TabCreateRequested u active);; mret r.

(** [await] on that promise: control comes back once it has settled. *)
Definition await_created (r : reply unit) : M unit :=
  emit (TabCreateSettled (match r with Resolved _ => true | Rejected _ => false end));;
  await r.

(** [for (const x of xs) { body }], the iterations numbered from [i]. *)
Fixpoint for_of {A} (body : nat → A → M unit) (i : nat) (xs : list A) : M unit :=
  match xs with
  | [] => mret tt
  | x :: rest => body i x;; for_of body (S i) rest
  end.

(** [xs.findIndex(s => s.timestamp === timestamp)]; [None] is [-1]. *)
Definition findIndex (ts : Z) (ss : list Session) : option nat :=
  fst <$> list_find (λ s, timestamp s = ts) ss.

(** [xs.find(s => s.timestamp === timestamp)]; [None] is [undefined]. *)
Definition find (ts : Z) (ss : list Session) : option Session :=
  snd <$> list_find (λ s, timestamp s = ts) ss.

Definition card_of (s : Session) : Card :=
  {| card_timestamp := timestamp s; card_name := name s;
     card_tabCount := tabCount s |}.

(** [renderSessions()]: drop every card, then show the empty state or one
    card per session, newest first. *)
Definition renderSessions : M unit :=
  ss ← gets sessions;
  if decide (length ss = 0%nat) then modify (with_view false [])
  else modify (with_view true (card_of <$> reverse ss)).

(** [closeRenameModal()] *)
Definition closeRenameModal : M unit :=
  modify (with_renameModalHidden true);;
  modify (with_currentRenameTimestamp None).

(** ** The handlers *)

(** What the host answers during one run of [saveCurrentTabs]. *)
Record SaveHost := {
  new_Date : Z;                          (* the clock read by [new Date()] *)
  tabs_query : reply (list ChromeTab);   (* chrome.tabs.query *)
  Date_now : Z;                          (* the clock read by [Date.now()] *)
  storage_set : reply unit               (* chrome.storage.local.set *)
}.

(** One save as the user performs it: the text typed into the name field,
    and what the host answers while the handler runs. *)
Record SaveOp := { typed : Js.str; host : SaveHost }.

Section Handlers.

(** [date.toLocaleString()], a function of the instant in a fixed locale. *)
Variable toLocaleString : Z → Js.str.

(** [tabs.map(tab => ({ title: tab.title, url: tab.url }))] *)
Definition tabData_of (ts : list ChromeTab) : list TabRecord :=
  (λ tab, {| title := tab_title tab; url := tab_url tab |}) <$> ts.

(** [async function saveCurrentTabs()] *)
Definition saveCurrentTabs (h : SaveHost) : M unit :=
  value ← gets sessionNameInput;
  let sessionName := Js.trim value in
  let sessionName :=
    if Js.falsy sessionName
    then Js.lit "Session " ++ toLocaleString (new_Date h)
    else sessionName in
  try_catch
    (tabs ← chrome_tabs_query (tabs_query h);
     let tabData := tabData_of tabs in
     let newSession :=
       {| name := sessionName; tabs := tabData;
          timestamp := Date_now h; tabCount := length tabData |} in
     modify (λ p, with_sessions (sessions p ++ [newSession]) p);;
     ss ← gets sessions;
     chrome_storage_local_set (storage_set h) ss;;
     modify (with_sessionNameInput []);;
     renderSessions;;
     showFeedback (Js.lit "Session saved successfully!") success)
    (λ err,
       console_error (Js.lit "Error saving tabs:") (inr err);;
       showFeedback (Js.lit "Error saving session") error).

(** [async function loadSessions()] *)
Definition loadSessions (get : reply unit) : M unit :=
  try_catch
    (stored ← chrome_storage_local_get get;
     modify (with_sessions (default [] stored));;   (* result.sessions || [] *)
     renderSessions)
    (λ err, console_error (Js.lit "Error loading sessions:") (inr err)).

(** The body of the loop of [openSessionByTimestamp]:
    [await chrome.tabs.create({ url: tab.url, active: false })];
    [create i] settles the [i]-th call. *)
Definition open_tab (create : nat → reply unit) (i : nat) (tab : TabRecord)
  : M unit :=
  promise ← chrome_tabs_create (create i) (url tab) false;
  await_created promise.

(** [`Opened ${n} tab${n !== 1 ? 's' : ''}`] *)
Definition opened_message (n : nat) : Js.str :=
  Js.lit "Opened " ++ Js.of_nat n ++ Js.lit " tab" ++
  (if decide (n = 1%nat) then [] else Js.lit "s").

(** [async function openSessionByTimestamp(timestamp)] *)
Definition openSessionByTimestamp (create : nat → reply unit) (ts : Z)
  : M unit :=
  ss ← gets sessions;
  match find ts ss with
  | None =>
      console_error (Js.lit "Session not found with timestamp:") (inl ts);;
      showFeedback (Js.lit "Error: Session not found") error
  | Some session =>
      try_catch
        (for_of (open_tab create) 0 (tabs session);;
         showFeedback (opened_message (length (tabs session))) success)
        (λ err,
           console_error (Js.lit "Error opening session:") (inr err);;
           showFeedback (Js.lit "Error opening session") error)
  end.

(** [`Delete session "${session.name}"?`] *)
Definition delete_prompt (session : Session) : Js.str :=
  Js.lit "Delete session " ++ [Js.dquote] ++ name session ++
  [Js.dquote] ++ Js.lit "?".

(** [async function deleteSessionByTimestamp(timestamp)]: [index] is the
    result of [findIndex] and [session] is [sessions[index]]. *)
Definition deleteSessionByTimestamp (answer : bool) (set : reply unit)
    (ts : Z) : M unit :=
  ss ← gets sessions;
  match list_find (λ s, timestamp s = ts) ss with
  | None =>
      console_error (Js.lit "Session not found with timestamp:") (inl ts);;
      showFeedback (Js.lit "Error: Session not found") error
  | Some (index, session) =>
      ok ← confirm answer (delete_prompt session);
      if negb ok then mret tt
      else
        try_catch
          (modify (λ p, with_sessions (delete index (sessions p)) p);;  (* splice(index, 1) *)
           ss' ← gets sessions;
           chrome_storage_local_set set ss';;
           renderSessions;;
           showFeedback (Js.lit "Session deleted") success)
          (λ err,
             console_error (Js.lit "Error deleting session:") (inr err);;
             showFeedback (Js.lit "Error deleting session") error)
  end.

(** [function openRenameModalByTimestamp(timestamp)] *)
Definition openRenameModalByTimestamp (ts : Z) : M unit :=
  ss ← gets sessions;
  match find ts ss with
  | None =>
      console_error (Js.lit "Session not found with timestamp:") (inl ts);;
      showFeedback (Js.lit "Error: Session not found") error
  | Some session =>
      modify (with_currentRenameTimestamp (Some ts));;
      modify (with_renameInput (name session));;
      modify (with_renameModalHidden false)
  end.

(** [async function confirmRename()] *)
Definition confirmRename (set : reply unit) : M unit :=
  target ← gets currentRenameTimestamp;
  match target with
  | None => mret tt
  | Some ts =>
      value ← gets renameInput;
      let newName := Js.trim value in
      if Js.falsy newName
      then showFeedback (Js.lit "Please enter a name") error
      else
        try_catch
          (ss ← gets sessions;
           match findIndex ts ss with
           | None => showFeedback (Js.lit "Error: Session not found") error
           | Some index =>
               modify (λ p, with_sessions
                              (alter (set_name newName) index (sessions p)) p);;
               ss' ← gets sessions;
               chrome_storage_local_set set ss';;
               renderSessions;;
               closeRenameModal;;
               showFeedback (Js.lit "Session renamed") success
           end)
          (λ err,
             console_error (Js.lit "Error renaming session:") (inr err);;
             showFeedback (Js.lit "Error renaming session") error)
  end.

(** The user typing into the two text fields. *)
Definition type_sessionName (v : Js.str) : M unit :=
  modify (with_sessionNameInput v).
Definition type_rename (v : Js.str) : M unit :=
  modify (with_renameInput v).

(** ** Runs of the popup and what to read off them *)

(** One save by the user: type the name, press the button. *)
Definition save_op (o : SaveOp) : M unit :=
  type_sessionName (typed o);; saveCurrentTabs (host o).

(** A sequence of saves, one after the other. *)
Fixpoint save_all (ops : list SaveOp) : M unit :=
  match ops with
  | [] => mret tt
  | o :: rest => save_op o;; save_all rest
  end.

(** The session one save builds from the enumerated tabs. *)
Definition built (o : SaveOp) (enumerated : list ChromeTab) : Session :=
  {| name := if Js.falsy (Js.trim (typed o))
             then Js.lit "Session " ++ toLocaleString (new_Date (host o))
             else Js.trim (typed o);
     tabs := tabData_of enumerated;
     timestamp := Date_now (host o);
     tabCount := length (tabData_of enumerated) |}.

(** The session a save stores when the host lets it through. *)
Definition goes_through (o : SaveOp) : option Session :=
  match tabs_query (host o), storage_set (host o) with
  | Resolved enumerated, Resolved _ => Some (built o enumerated)
  | _, _ => None
  end.

(** One creation that went through: the request for an inactive tab at
    the record's URL, then the settlement the handler waited for. *)
Definition creation (tab : TabRecord) : list Event :=
  [TabCreateRequested (url tab) false; TabCreateSettled true].

(** The tab-creation requests of a trace, in order. *)
Definition requests (tr : list Event) : list (Js.str * bool) :=
  omap (λ e, match e with
             | TabCreateRequested u a => Some (u, a)
             | _ => None
             end) tr.

End Handlers.

(** ** Sample data for the scenarios *)

Module Sample.

(** A stand-in for the locale rendering: the instant in decimal. *)
Definition locale (instant : Z) : Js.str := Js.lit (pretty instant).

Definition tabA : ChromeTab :=
  {| tab_id := 11; tab_index := 0; tab_active := true; tab_pinned := false;
     tab_title := Js.lit "A"; tab_url := Js.lit "https://a.test" |}.

Definition tabB : ChromeTab :=
  {| tab_id := 12; tab_index := 1; tab_active := false; tab_pinned := false;
     tab_title := Js.lit "B"; tab_url := Js.lit "https://b.test" |}.

Definition recA : TabRecord :=
  {| title := Js.lit "A"; url := Js.lit "https://a.test" |}.

Definition recB : TabRecord :=
  {| title := Js.lit "B"; url := Js.lit "https://b.test" |}.

Definition session_at (ts : Z) (n : string) : Session :=
  {| name := Js.lit n; tabs := [recA; recB]; timestamp := ts; tabCount := 2 |}.

(** A store holding sessions with timestamps 100, 200 and 300. *)
Definition disk : Storage :=
  {| stored_sessions :=
       Some [session_at 100 "one"; session_at 200 "two"; session_at 300 "three"];
     stored_darkMode := None |}.

(** The popup opened over that store, once [loadSessions] has run. *)
Definition loaded : Popup := exec (loadSessions (Resolved tt)) (opened disk).

(** The rename modal opened on the session of timestamp 200, with the
    field overwritten by the given text. *)
Definition renaming (text : string) : Popup :=
  exec (type_rename (Js.lit text)) (exec (openRenameModalByTimestamp 200) loaded).

(** The host during a save of the two tabs at clock reading [now]. *)
Definition host_at (now : Z) : SaveHost :=
  {| new_Date := now; tabs_query := Resolved [tabA; tabB];
     Date_now := now; storage_set := Resolved tt |}.

(** The name field holding three spaces, over an empty store. *)
Definition blank_input : Popup :=
  exec (type_sessionName (Js.lit "   ")) (opened empty_storage).

(** Two saves, named "first" and "second", whose readings of [Date.now()]
    are the same millisecond. *)
Definition same_millisecond : list SaveOp :=
  [ {| typed := Js.lit "first"; host := host_at 1700000000000 |};
    {| typed := Js.lit "second"; host := host_at 1700000000000 |} ].

End Sample.

(** ** The rest of the popup: index entry points, events, cards, theme *)

(** [parseInt(string)] and [String(number)] on integers: what carries a
    timestamp through a [data-timestamp] attribute.  [None] is [NaN]. *)
Module Num.

(** [String(n)] for an integer: decimal digits, a minus sign if negative. *)
Definition toString (n : Z) : Js.str := Js.lit (pretty n).

(** The value of a code unit as a digit of the radix, if it is one. *)
Definition digit (radix : N) (c : N) : option N :=
  let v := (if (48 <=? c) && (c <=? 57) then Some (c - 48)
            else if (97 <=? c) && (c <=? 122) then Some (c - 87)
            else if (65 <=? c) && (c <=? 90) then Some (c - 55)
            else None)%N in
  v ≫= λ d, if (d <? radix)%N then Some d else None.

(** The longest prefix of digits, as the number it denotes and how many
    code units it took. *)
Fixpoint digits (radix : N) (acc : N) (taken : nat) (s : Js.str) : N * nat :=
  match s with
  | c :: rest =>
      match digit radix c with
      | Some d => digits radix (acc * radix + d)%N (S taken) rest
      | None => (acc, taken)
      end
  | [] => (acc, taken)
  end.

(** The code units of the decimal digits. *)
Definition decimal (c : N) : Prop := (48 ≤ c ≤ 57)%N.

(** [parseInt(s)] with no radix argument: leading white space, an optional
    sign, an optional [0x] prefix, then digits up to the first code unit
    that is not one. *)
Definition parseInt (s : Js.str) : option Z :=
  let s := Js.trimStart s in
  let '(sign, s) :=
    match s with
    | 45%N :: rest => (-1, rest)
    | 43%N :: rest => (1, rest)
    | _ => (1, s)
    end in
  let '(radix, s) :=
    match s with
    | 48%N :: 120%N :: rest => (16%N, rest)
    | 48%N :: 88%N :: rest => (16%N, rest)
    | _ => (10%N, s)
    end in
  match digits radix 0 0 s with
  | (_, O) => None
  | (v, S _) => Some (sign * Z.of_N v)
  end.

End Num.

(** The element [createSessionCard] builds, as far as its text and its
    data attributes go. *)
Record CardElement := {
  el_dataset_timestamp : Js.str;     (* card.dataset.timestamp *)
  el_name_text : Js.str;             (* h3.session-name textContent *)
  el_name_title : Js.str;            (* h3.session-name title *)
  el_badge : Js.str;                 (* span.tab-badge textContent *)
  el_time : Js.str;                  (* the timestamp span *)
  el_open_dataset : Js.str;          (* openBtn.dataset.timestamp *)
  el_rename_dataset : Js.str;        (* renameBtn.dataset.timestamp *)
  el_delete_dataset : Js.str         (* deleteBtn.dataset.timestamp *)
}.

(** The theme of the page: the [dark] class of the root element and the
    [hidden] class of the two icons. *)
Record Theme := {
  dark : bool;
  sunIconHidden : bool;
  moonIconHidden : bool
}.

(** The page: the theme beside the popup's world. *)
Record Page := { theme : Theme; world : Popup }.

(** The service worker of [background.js]: the extension storage and the
    lines it logged, each with its arguments. *)
Record Worker := { disk : Storage; logged : list (list Js.str) }.

(** What the user or the browser can do to the popup, with what the host
    answers while the listener runs. *)
Inductive Action :=
  | TypeSessionName (text : Js.str)
  | ClickSave (h : SaveHost)
  | KeypressSessionName (key : Js.str) (h : SaveHost)
  | TypeRename (text : Js.str)
  | ClickCancelRename
  | ClickConfirmRename (set : reply unit)
  | KeypressRename (key : Js.str) (set : reply unit)
  | ClickModal (target_id : Js.str)
  | ClickOpen (ts : Z) (create : nat → reply unit)
  | ClickRenameButton (ts : Z)
  | ClickDelete (ts : Z) (answer : bool) (set : reply unit).

Section Rest.

Variable toLocaleString : Z → Js.str.

(** [date.toLocaleDateString()] *)
Variable toLocaleDateString : Z → Js.str.

(** [async function openSession(index)] *)
Definition openSession (create : nat → reply unit) (index : Z) : M unit :=
  ss ← gets sessions;
  if (index <? 0) || (Z.of_nat (length ss) <=? index) then mret tt
  else
    match ss !! Z.to_nat index with
    | Some session => openSessionByTimestamp create (timestamp session)
    | None => mret tt
    end.

(** [async function deleteSession(index)] *)
Definition deleteSession (answer : bool) (set : reply unit) (index : Z)
  : M unit :=
  ss ← gets sessions;
  if (index <? 0) || (Z.of_nat (length ss) <=? index) then mret tt
  else
    match ss !! Z.to_nat index with
    | Some session => deleteSessionByTimestamp answer set (timestamp session)
    | None => mret tt
    end.

(** [function openRenameModal(index)] *)
Definition openRenameModal (index : Z) : M unit :=
  ss ← gets sessions;
  if (0 <=? index) && (index <? Z.of_nat (length ss)) then
    match ss !! Z.to_nat index with
    | Some session => openRenameModalByTimestamp (timestamp session)
    | None => mret tt
    end
  else mret tt.

(** The largest time value a [Date] holds: 8.64e15 ms either side of the
    epoch. *)
Definition max_time : Z := 8640000000000000.

(** [new Date(value)] for an integer: its time value, or [None] for an
    invalid date, whose time value is [NaN]. *)
Definition Date_of (value : Z) : option Z :=
  if Z.abs value <=? max_time then Some value else None.

(** [function formatTimestamp(timestamp)], at the instant [now] that
    [new Date()] reads.  With an invalid [date] the difference is [NaN],
    every comparison is false, and [date.toLocaleDateString()] is
    "Invalid Date". *)
Definition formatTimestamp (now : Z) (ts : Z) : Js.str :=
  match Date_of ts with
  | None => Js.lit "Invalid Date"
  | Some date =>
      let diffMs := now - date in
      let diffMins := diffMs / 60000 in
      let diffHours := diffMs / 3600000 in
      let diffDays := diffMs / 86400000 in
      if diffMins <? 1 then Js.lit "Just now"
      else if diffMins <? 60 then Num.toString diffMins ++ Js.lit "m ago"
      else if diffHours <? 24 then Num.toString diffHours ++ Js.lit "h ago"
      else if diffDays <? 7 then Num.toString diffDays ++ Js.lit "d ago"
      else toLocaleDateString date
  end.

(** [`${session.tabCount} tab${session.tabCount !== 1 ? 's' : ''}`] *)
Definition tab_badge (n : nat) : Js.str :=
  Js.of_nat n ++ Js.lit " tab" ++
  (if decide (n = 1%nat) then [] else Js.lit "s").

(** [function createSessionCard(session, index)], at the instant [now]. *)
Definition createSessionCard (now : Z) (session : Session) (index : Z)
  : CardElement :=
  {| el_dataset_timestamp := Num.toString (timestamp session);
     el_name_text := name session;
     el_name_title := name session;
     el_badge := tab_badge (tabCount session);
     el_time := formatTimestamp now (timestamp session);
     el_open_dataset := Num.toString (timestamp session);
     el_rename_dataset := Num.toString (timestamp session);
     el_delete_dataset := Num.toString (timestamp session) |}.

(** The calls of [createSessionCard] that [renderSessions] makes, in order:
    [sessions.slice().reverse().forEach((session, reverseIndex) => ...)]
    with [actualIndex = sessions.length - 1 - reverseIndex]. *)
Definition card_calls (ss : list Session) : list (Session * Z) :=
  imap (λ reverseIndex session,
          let actualIndex := Z.of_nat (length ss) - 1 - Z.of_nat reverseIndex in
          (session, actualIndex))
       (reverse ss).

(** The cards [renderSessions] inserts, top to bottom. *)
Definition rendered_cards (now : Z) (ss : list Session) : list CardElement :=
  (λ call, createSessionCard now call.1 call.2) <$> card_calls ss.

(** [function updateDarkModeIcon(isDark)] *)
Definition updateDarkModeIcon (isDark : bool) (t : Theme) : Theme :=
  if isDark
  then {| dark := dark t; sunIconHidden := false; moonIconHidden := true |}
  else {| dark := dark t; sunIconHidden := true; moonIconHidden := false |}.

(** [chrome.storage.local.set({ darkMode: isDark })], not awaited: a
    resolved write replaces that key, a rejected one writes nothing. *)
Definition set_darkMode (r : reply unit) (isDark : bool) (st : Storage)
  : Storage :=
  match r with
  | Resolved _ =>
      {| stored_sessions := stored_sessions st; stored_darkMode := Some isDark |}
  | Rejected _ => st
  end.

(** [function toggleDarkMode()]: [classList.toggle] flips the class and
    returns whether it is now present. *)
Definition toggleDarkMode (set : reply unit) (pg : Page) : Page :=
  let isDark := negb (dark (theme pg)) in
  let toggled :=
    {| dark := isDark; sunIconHidden := sunIconHidden (theme pg);
       moonIconHidden := moonIconHidden (theme pg) |} in
  {| theme := updateDarkModeIcon isDark toggled;
     world := with_storage (set_darkMode set isDark (storage (world pg)))
                (world pg) |}.

(** [function initializeDarkMode()]: the callback runs on the stored value;
    when the read fails there is no result to read and nothing is done. *)
Definition initializeDarkMode (get : reply unit) (pg : Page) : Page :=
  match get with
  | Rejected _ => pg
  | Resolved _ =>
      let isDark := default false (stored_darkMode (storage (world pg))) in
      if isDark
      then {| theme :=
                updateDarkModeIcon true
                  {| dark := true; sunIconHidden := sunIconHidden (theme pg);
                     moonIconHidden := moonIconHidden (theme pg) |};
              world := world pg |}
      else pg
  end.

(** The listeners [initializeEventListeners] and [createSessionCard]
    attach, as one dispatch on what happened. *)
Definition perform (a : Action) : M unit :=
  match a with
  | TypeSessionName text => type_sessionName text
  | ClickSave h => saveCurrentTabs toLocaleString h
  | KeypressSessionName key h =>
      if decide (key = Js.lit "Enter")
      then saveCurrentTabs toLocaleString h else mret tt
  | TypeRename text => type_rename text
  | ClickCancelRename => closeRenameModal
  | ClickConfirmRename set => confirmRename set
  | KeypressRename key set =>
      if decide (key = Js.lit "Enter") then confirmRename set else mret tt
  | ClickModal target_id =>
      if decide (target_id = Js.lit "renameModal")
      then closeRenameModal else mret tt
  | ClickOpen ts create => openSessionByTimestamp create ts
  | ClickRenameButton ts => openRenameModalByTimestamp ts
  | ClickDelete ts answer set => deleteSessionByTimestamp answer set ts
  end.

(** A run of the popup: one action after the other. *)
Fixpoint perform_all (acts : list Action) : M unit :=
  match acts with
  | [] => mret tt
  | a :: rest => perform a;; perform_all rest
  end.

(** [chrome.runtime.onInstalled] of [background.js]: [reason] is
    [details.reason], [version] is [chrome.runtime.getManifest().version].
    The write is not awaited, so the line after it is logged whatever
    becomes of it; a failed read leaves the callback with no result. *)
Definition onInstalled (reason version : Js.str) (get set : reply unit)
    (w : Worker) : Worker :=
  if decide (reason = Js.lit "install") then
    let w1 := {| disk := disk w;
                 logged := logged w ++ [[Js.lit "TabSaver installed successfully!"]] |} in
    match get with
    | Rejected _ => w1
    | Resolved _ =>
        match stored_sessions (disk w1) with
        | Some _ => w1                        (* an array is truthy *)
        | None =>
            {| disk :=
                 match set with
                 | Resolved _ =>
                     {| stored_sessions := Some [];
                        stored_darkMode := stored_darkMode (disk w1) |}
                 | Rejected _ => disk w1
                 end;
               logged := logged w1 ++
                 [[Js.lit "Initialized empty sessions array in storage"]] |}
        end
    end
  else if decide (reason = Js.lit "update") then
    {| disk := disk w;
       logged := logged w ++ [[Js.lit "TabSaver updated to version"; version]] |}
  else w.

End Rest.

(** ** What the properties of a run speak about *)

(** The [newSession] a save builds: from the text in the name field, the
    enumerated tabs and the two clock readings. *)
Definition newSession (toLocaleString : Z → Js.str) (p : Popup) (h : SaveHost)
    (enumerated : list ChromeTab) : Session :=
  {| name := if Js.falsy (Js.trim (sessionNameInput p))
             then Js.lit "Session " ++ toLocaleString (new_Date h)
             else Js.trim (sessionNameInput p);
     tabs := tabData_of enumerated;
     timestamp := Date_now h;
     tabCount := length (tabData_of enumerated) |}.

(** The fields of a session that only a save sets. *)
Definition core (s : Session) : Z * list TabRecord * nat :=
  (timestamp s, tabs s, tabCount s).

(** A session as a save or a rename leaves it: the count is the number of
    tabs and the name is not empty. *)
Definition well_formed (s : Session) : Prop :=
  tabCount s = length (tabs s) ∧ name s ≠ [].


(** The storage holds the list in memory (a key never written counts as
    the empty list, as [loadSessions] reads it). *)
Definition storage_in_sync (p : Popup) : Prop :=
  default [] (stored_sessions (storage p)) = sessions p.


(** The reading of [Date.now()] an action may store as a timestamp. *)
Definition save_clock (a : Action) : list Z :=
  match a with
  | ClickSave h => [Date_now h]
  | KeypressSessionName key h =>
      if decide (key = Js.lit "Enter") then [Date_now h] else []
  | _ => []
  end.

(** ** More sample data *)

Module Sample2.

Definition locale : Z → Js.str := Sample.locale.
Definition loaded : Popup := Sample.loaded.

(** A stand-in for the locale date: the instant in decimal. *)
Definition locale_date (instant : Z) : Js.str := Js.lit (pretty instant).

(** A host whose tab query rejects. *)
Definition query_rejected : SaveHost :=
  {| new_Date := 400; tabs_query := Rejected (Js.lit "no window");
     Date_now := 400; storage_set := Resolved tt |}.

(** A host whose storage write rejects. *)
Definition write_rejected : SaveHost :=
  {| new_Date := 400; tabs_query := Resolved [Sample.tabA; Sample.tabB];
     Date_now := 400; storage_set := Rejected (Js.lit "quota") |}.

(** A host that lets a save through at clock reading [now]. *)
Definition host_at : Z → SaveHost := Sample.host_at.

(** The store two saves in one millisecond leave: "first" and "second",
    both with timestamp 1700000000000. *)
Definition collided : Popup :=
  exec (loadSessions (Resolved tt))
    (exec (save_all Sample.locale Sample.same_millisecond)
       (opened empty_storage)).

(** On that store, the rename button of the card of "second" pressed (its
    [data-timestamp] is 1700000000000) and the field overwritten. *)
Definition renaming_second (text : string) : Popup :=
  exec (type_rename (Js.lit text))
    (exec (openRenameModalByTimestamp 1700000000000) collided).

(** A run over the three loaded sessions: a save, a rename, a deletion
    and a restore, every host call resolving. *)
Definition session_run : list Action :=
  [ TypeSessionName (Js.lit "work");
    ClickSave (host_at 400);
    ClickRenameButton 200;
    TypeRename (Js.lit " second ");
    KeypressRename (Js.lit "Enter") (Resolved tt);
    ClickDelete 100 true (Resolved tt);
    ClickOpen 300 (λ _, Resolved tt);
    ClickModal (Js.lit "renameModal") ].

(** Creations that resolve except the second one. *)
Definition second_rejected (i : nat) : reply unit :=
  if decide (i = 1%nat) then Rejected (Js.lit "denied") else Resolved tt.

(** The static page in light mode. *)
Definition light : Theme :=
  {| dark := false; sunIconHidden := true; moonIconHidden := false |}.

Definition page : Page := {| theme := light; world := loaded |}.

(** A worker over a store never written, and over the sample store. *)
Definition first_install : Worker := {| disk := empty_storage; logged := [] |}.
Definition reinstall : Worker := {| disk := Sample.disk; logged := [] |}.

End Sample2.

(** * Properties *)

(** ** Blank input *)

Module JsFacts.

Lemma trimStart_nil_iff s : Js.trimStart s = [] ↔ Js.blank s.
Proof.
  unfold Js.blank. induction s as [|c s IH]; simpl.
  - split; [constructor | reflexivity].
  - destruct (Js.is_whitespace c) eqn:Hc.
    + rewrite IH. split; [by constructor | by inversion 1].
    + split; [discriminate | inversion 1; congruence].
Qed.

(** What [trimStart] leaves is empty or starts with a visible character. *)
Lemma trimStart_head s c s' :
  Js.trimStart s = c :: s' → Js.is_whitespace c = false.
Proof.
  induction s as [|d s IH]; simpl; [discriminate|].
  destruct (Js.is_whitespace d) eqn:Hd; [exact IH|].
  intros [= <- _]. exact Hd.
Qed.

(** [s.trim()] is the empty string exactly when [s] is blank. *)
Lemma trim_nil_iff s : Js.trim s = [] ↔ Js.blank s.
Proof.
  unfold Js.trim, Js.trimEnd. split.
  - intros H. apply (f_equal reverse) in H.
    rewrite reverse_involutive in H. change (reverse []) with (@nil N) in H.
    apply trimStart_nil_iff in H. unfold Js.blank in H.
    rewrite Forall_reverse in H.
    destruct (Js.trimStart s) as [|c s'] eqn:Hs.
    + by apply trimStart_nil_iff.
    + apply trimStart_head in Hs. inversion H; congruence.
  - intros H. apply trimStart_nil_iff in H. by rewrite H.
Qed.

Lemma falsy_trim s : Js.falsy (Js.trim s) = true ↔ Js.blank s.
Proof.
  rewrite <- trim_nil_iff. destruct (Js.trim s); simpl; split; congruence.
Qed.

Lemma falsy_false s : Js.falsy s = false ↔ s ≠ [].
Proof. destruct s; simpl; split; congruence. Qed.

End JsFacts.

(** ** Running the monad *)

(** Unfold the monad and the helpers down to the world they build. *)
Ltac run :=
  cbv [exec result mbind mret M_bind M_ret gets modify emit throw try_catch
       await showFeedback console_error confirm chrome_tabs_query
       chrome_storage_local_set chrome_storage_local_get chrome_tabs_create
       await_created closeRenameModal type_sessionName type_rename];
  simpl.

(** A timestamp that no session carries is not found, and conversely. *)
Lemma list_find_timestamp_None ts (ss : list Session) :
  list_find (λ s, timestamp s = ts) ss = None ↔ ts ∉ timestamp <$> ss.
Proof.
  rewrite list_find_None, list_elem_of_fmap, Forall_forall. split.
  - intros H (s & -> & Hs). by apply (H s).
  - intros H s Hs Heq. apply H. eauto.
Qed.

(** A timestamp some session carries is found at its first occurrence. *)
Lemma list_find_timestamp_Some ts (ss : list Session) :
  ts ∈ timestamp <$> ss →
  ∃ index session l1 l2,
    list_find (λ s, timestamp s = ts) ss = Some (index, session) ∧
    ss = l1 ++ session :: l2 ∧ length l1 = index ∧
    timestamp session = ts ∧ Forall (λ s, timestamp s ≠ ts) l1.
Proof.
  intros Hin.
  destruct (list_find (λ s, timestamp s = ts) ss) as [[index session]|] eqn:Hf.
  - apply list_find_Some in Hf as (Hl & Hts & Hfirst).
    exists index, session, (take index ss), (drop (S index) ss).
    split_and!; [done | | | done |].
    + by rewrite take_drop_middle.
    + rewrite length_take. apply lookup_lt_Some in Hl. lia.
    + apply Forall_lookup. intros j s Hj.
      apply lookup_take_Some in Hj as [Hj Hlt]. by apply (Hfirst j).
  - by apply list_find_timestamp_None in Hf.
Qed.

(** ** Loading *)

Section Load.

(** C9. When nothing has ever been written under the [sessions] key,
    [loadSessions] ends normally with the empty list in memory: the
    handler throws nothing, logs nothing, reports nothing, and shows
    the empty state. *)
Theorem loadSessions_nothing_stored (p : Popup) :
  stored_sessions (storage p) = None →
  let p' := exec (loadSessions (Resolved tt)) p in
  result (loadSessions (Resolved tt)) p = Done tt ∧
  sessions p' = [] ∧
  trace p' = trace p ∧
  storage p' = storage p ∧
  cards p' = [] ∧ emptyStateHidden p' = false.
Proof.
  intros Hnone. unfold loadSessions, renderSessions. run.
  rewrite Hnone. simpl. done.
Qed.

(** No settlement of the read lets an exception out of [loadSessions]. *)
Lemma loadSessions_total (get : reply unit) (p : Popup) :
  result (loadSessions get) p = Done tt.
Proof.
  unfold loadSessions, renderSessions. run. destruct get as [[]|e]; simpl.
  - by destruct (decide _).
  - done.
Qed.

(** A popup that has just been opened over a store without the key holds
    the empty list whatever the read does. *)
Lemma loadSessions_opened (get : reply unit) (disk : Storage) :
  stored_sessions disk = None →
  sessions (exec (loadSessions get) (opened disk)) = [].
Proof.
  intros Hnone. unfold loadSessions, renderSessions. run.
  destruct get as [[]|e]; simpl; [|done]. by rewrite Hnone.
Qed.

(** A resolved read brings the stored list into memory. *)
Lemma loadSessions_stored (p : Popup) (l : list Session) :
  stored_sessions (storage p) = Some l →
  sessions (exec (loadSessions (Resolved tt)) p) = l.
Proof.
  intros Hsome. unfold loadSessions, renderSessions. run.
  rewrite Hsome. simpl. by destruct (decide _).
Qed.

End Load.

(** ** Deleting *)

Section Delete.

(** C8. Deleting by a timestamp that no session carries reports
    "Session not found" as an error, asks nothing, writes nothing to
    storage and leaves the list as it was. *)
Theorem delete_absent_reports_not_found
    (p : Popup) (ts : Z) (answer : bool) (set : reply unit) :
  ts ∉ timestamp <$> sessions p →
  let p' := exec (deleteSessionByTimestamp answer set ts) p in
  sessions p' = sessions p ∧
  storage p' = storage p ∧
  cards p' = cards p ∧
  trace p' = trace p ++
    [ConsoleError (Js.lit "Session not found with timestamp:") (inl ts);
     Feedback (Js.lit "Error: Session not found") error] ∧
  result (deleteSessionByTimestamp answer set ts) p = Done tt.
Proof.
  intros Habs. apply list_find_timestamp_None in Habs.
  unfold deleteSessionByTimestamp. run. rewrite Habs. simpl.
  rewrite <- app_assoc. done.
Qed.

(** C10. When the user cancels the prompt, the session has been located
    and the prompt shown with its name, and nothing else happens: the
    list in memory, the storage and the view are untouched and no write
    is attempted. *)
Theorem delete_cancelled_changes_nothing
    (p : Popup) (ts : Z) (set : reply unit) :
  ts ∈ timestamp <$> sessions p →
  let p' := exec (deleteSessionByTimestamp false set ts) p in
  ∃ index session,
    list_find (λ s, timestamp s = ts) (sessions p) = Some (index, session) ∧
    sessions p' = sessions p ∧
    storage p' = storage p ∧
    cards p' = cards p ∧
    trace p' = trace p ++ [ConfirmPrompt (delete_prompt session) false] ∧
    result (deleteSessionByTimestamp false set ts) p = Done tt.
Proof.
  intros Hin.
  destruct (list_find_timestamp_Some _ _ Hin)
    as (index & session & l1 & l2 & Hfind & _).
  exists index, session. split; [done|].
  unfold deleteSessionByTimestamp. run. rewrite Hfind. simpl. done.
Qed.

(** C3. Deleting by a timestamp that is present, once the user has
    confirmed, removes the first session carrying it and nothing else:
    the sessions before and after it stay, unchanged and in order; the
    prompt named that session; and a resolved write stores exactly the
    remaining list. *)
Theorem delete_present_removes_first
    (p : Popup) (ts : Z) (set : reply unit) :
  ts ∈ timestamp <$> sessions p →
  let p' := exec (deleteSessionByTimestamp true set ts) p in
  ∃ l1 session l2,
    sessions p = l1 ++ session :: l2 ∧
    timestamp session = ts ∧
    Forall (λ s, timestamp s ≠ ts) l1 ∧
    sessions p' = l1 ++ l2 ∧
    (set = Resolved tt →
       stored_sessions (storage p') = Some (l1 ++ l2) ∧
       trace p' = trace p ++
         [ConfirmPrompt (delete_prompt session) true;
          StorageSetSessions (l1 ++ l2);
          Feedback (Js.lit "Session deleted") success]).
Proof.
  intros Hin.
  destruct (list_find_timestamp_Some _ _ Hin)
    as (index & session & l1 & l2 & Hfind & Hsplit & Hlen & Hts & Hfirst).
  exists l1, session, l2. split_and!; [done..| |].
  - unfold deleteSessionByTimestamp, renderSessions. run.
    rewrite Hfind. simpl.
    assert (Hdel : delete index (sessions p) = l1 ++ l2).
    { rewrite Hsplit, <- Hlen. apply delete_middle. }
    destruct set as [[]|e]; simpl; [destruct (decide _)|]; simpl; done.
  - intros ->. unfold deleteSessionByTimestamp, renderSessions. run.
    rewrite Hfind. simpl.
    assert (Hdel : delete index (sessions p) = l1 ++ l2).
    { rewrite Hsplit, <- Hlen. apply delete_middle. }
    destruct (decide _); simpl; rewrite Hdel, <- !app_assoc; done.
Qed.

End Delete.

(** ** Renaming *)

Section Rename.

Import JsFacts.

(** C5. With a rename target set and a blank or whitespace-only input,
    confirming reports "Please enter a name" as an error and does nothing
    else: every stored name, the whole list and the storage are as
    before, no write is attempted, and the modal stays as it is, still
    aimed at the same target. *)
Theorem confirmRename_blank_is_rejected
    (p : Popup) (ts : Z) (set : reply unit) :
  currentRenameTimestamp p = Some ts →
  Js.blank (renameInput p) →
  let p' := exec (confirmRename set) p in
  sessions p' = sessions p ∧
  storage p' = storage p ∧
  renameModalHidden p' = renameModalHidden p ∧
  currentRenameTimestamp p' = Some ts ∧
  renameInput p' = renameInput p ∧
  trace p' = trace p ++ [Feedback (Js.lit "Please enter a name") error].
Proof.
  intros Htarget Hblank. apply falsy_trim in Hblank.
  unfold confirmRename. run. rewrite Htarget. simpl.
  rewrite Hblank. simpl. done.
Qed.

(** [alter (set_name n) i] touches no field other than [name]. *)
Lemma alter_set_name_frame (n : Js.str) (i : nat) (ss : list Session) :
  timestamp <$> alter (set_name n) i ss = timestamp <$> ss ∧
  tabs <$> alter (set_name n) i ss = tabs <$> ss ∧
  tabCount <$> alter (set_name n) i ss = tabCount <$> ss.
Proof.
  split_and!;
    (rewrite (list_fmap_alter _ _ id); [by apply list_alter_id|]);
    by apply Forall_true.
Qed.

(** The list in memory after a confirmed rename, whatever the write does:
    the assignment comes before the [await]. *)
Lemma confirmRename_sessions
    (p : Popup) (ts : Z) (set : reply unit) (index : nat) :
  currentRenameTimestamp p = Some ts →
  Js.trim (renameInput p) ≠ [] →
  findIndex ts (sessions p) = Some index →
  sessions (exec (confirmRename set) p) =
    alter (set_name (Js.trim (renameInput p))) index (sessions p).
Proof.
  intros Htarget Hname Hidx. apply falsy_false in Hname.
  unfold confirmRename, renderSessions. run. rewrite Htarget. simpl.
  rewrite Hname. simpl. rewrite Hidx. simpl.
  destruct set as [[]|e]; simpl; [destruct (decide _)|]; done.
Qed.

(** The frame of a rename, on every store. Confirming a rename aimed at
    the timestamp of a session of the list, with an input that is not
    blank, assigns the trimmed input to the [name] of the session that
    timestamp finds (the first one carrying it, which is the session
    itself when timestamps are distinct) and to nothing else: every
    session keeps its [tabs], [timestamp] and [tabCount], every other
    session is unchanged, the list keeps its length and order, and a
    resolved write stores the renamed list. *)
Theorem confirmRename_updates_only_name
    (p : Popup) (s : Session) (set : reply unit) :
  s ∈ sessions p →
  currentRenameTimestamp p = Some (timestamp s) →
  Js.trim (renameInput p) ≠ [] →
  let newName := Js.trim (renameInput p) in
  let p' := exec (confirmRename set) p in
  ∃ index target,
    list_find (λ x, timestamp x = timestamp s) (sessions p)
      = Some (index, target) ∧
    (NoDup (timestamp <$> sessions p) → target = s) ∧
    sessions p' = <[index := set_name newName target]> (sessions p) ∧
    sessions p' !! index =
      Some {| name := newName; tabs := tabs target;
              timestamp := timestamp target; tabCount := tabCount target |} ∧
    (∀ j, j ≠ index → sessions p' !! j = sessions p !! j) ∧
    timestamp <$> sessions p' = timestamp <$> sessions p ∧
    tabs <$> sessions p' = tabs <$> sessions p ∧
    tabCount <$> sessions p' = tabCount <$> sessions p ∧
    (set = Resolved tt →
       stored_sessions (storage p') = Some (sessions p')).
Proof.
  intros Hin Htarget Hname newName p'.
  assert (Hts : timestamp s ∈ timestamp <$> sessions p)
    by (apply list_elem_of_fmap; eauto).
  destruct (list_find_timestamp_Some _ _ Hts)
    as (index & target & l1 & l2 & Hfind & Hsplit & Hlen & Htt & Hfirst).
  assert (Hidx : findIndex (timestamp s) (sessions p) = Some index)
    by (unfold findIndex; by rewrite Hfind).
  assert (Hlook : sessions p !! index = Some target)
    by (by apply list_find_Some in Hfind as (? & _)).
  assert (Hp' : sessions p' = alter (set_name newName) index (sessions p))
    by (by apply (confirmRename_sessions p (timestamp s))).
  exists index, target. split_and!.
  - done.
  - intros Hnd. apply list_elem_of_lookup in Hin as [j Hj].
    assert (j = index) as ->; [|congruence].
    apply (NoDup_lookup _ _ _ (timestamp s) Hnd); rewrite list_lookup_fmap.
    + by rewrite Hj.
    + rewrite Hlook. simpl. by rewrite Htt.
  - rewrite Hp'. apply list_eq. intros j.
    destruct (decide (j = index)) as [->|Hne].
    + rewrite list_lookup_alter_eq, Hlook. simpl.
      rewrite list_lookup_insert_eq; [done|]. by eapply lookup_lt_Some.
    + by rewrite list_lookup_alter_ne, list_lookup_insert_ne.
  - rewrite Hp', list_lookup_alter_eq, Hlook. done.
  - intros j Hne. rewrite Hp'. by apply list_lookup_alter_ne.
  - rewrite Hp'. apply alter_set_name_frame.
  - rewrite Hp'. apply alter_set_name_frame.
  - rewrite Hp'. apply alter_set_name_frame.
  - intros ->. subst p' newName. apply falsy_false in Hname.
    unfold confirmRename, renderSessions. run. rewrite Htarget. simpl.
    rewrite Hname. simpl. rewrite Hidx. simpl.
    by destruct (decide _).
Qed.

(** The modal opened on a session of the list aims at its timestamp and
    holds its current name; the list is untouched. *)
Lemma openRenameModalByTimestamp_aims (p : Popup) (s : Session) :
  s ∈ sessions p →
  let p' := exec (openRenameModalByTimestamp (timestamp s)) p in
  currentRenameTimestamp p' = Some (timestamp s) ∧
  renameModalHidden p' = false ∧
  sessions p' = sessions p ∧ storage p' = storage p.
Proof.
  intros Hin.
  assert (Hts : timestamp s ∈ timestamp <$> sessions p)
    by (apply list_elem_of_fmap; eauto).
  destruct (list_find_timestamp_Some _ _ Hts)
    as (index & target & l1 & l2 & Hfind & _).
  unfold openRenameModalByTimestamp, find. run. rewrite Hfind. done.
Qed.

End Rename.

(** ** Restoring *)

Section Restore.

Lemma with_trace_same (p : Popup) : with_trace (trace p) p = p.
Proof. by destruct p. Qed.

Lemma requests_app tr1 tr2 : requests (tr1 ++ tr2) = requests tr1 ++ requests tr2.
Proof. apply omap_app. Qed.

Lemma requests_creations (xs : list TabRecord) :
  requests (xs ≫= creation) = (λ tab, (url tab, false)) <$> xs.
Proof.
  induction xs as [|x xs IH]; [done|].
  rewrite bind_cons, requests_app, IH. done.
Qed.

Lemma open_tab_resolved create i tab p :
  create i = Resolved tt →
  open_tab create i tab p =
    (Done tt, with_trace (trace p ++ creation tab) p).
Proof.
  intros Hi. unfold open_tab. run. rewrite Hi. simpl.
  by rewrite <- app_assoc.
Qed.

Lemma open_tab_rejected create i tab p e :
  create i = Rejected e →
  open_tab create i tab p =
    (Thrown e,
     with_trace (trace p ++ [TabCreateRequested (url tab) false;
                             TabCreateSettled false]) p).
Proof.
  intros Hi. unfold open_tab. run. rewrite Hi. simpl.
  by rewrite <- app_assoc.
Qed.

(** The loop over creations that all resolve: request, wait, next. *)
Lemma for_of_all_resolved create (xs : list TabRecord) : ∀ i p,
  (∀ k, (k < length xs)%nat → create (i + k)%nat = Resolved tt) →
  for_of (open_tab create) i xs p =
    (Done tt, with_trace (trace p ++ (xs ≫= creation)) p).
Proof.
  induction xs as [|x xs IH]; intros i p Hall.
  - simpl. rewrite app_nil_r, with_trace_same. done.
  - cbn [for_of]. unfold mbind at 1, M_bind.
    rewrite open_tab_resolved.
    2:{ rewrite <- (Hall 0%nat); [f_equal; lia | simpl; lia]. }
    rewrite IH.
    2:{ intros k Hk. rewrite <- (Hall (S k)); [f_equal; lia | simpl; lia]. }
    simpl. by rewrite <- app_assoc.
Qed.

(** The loop up to the first creation that rejects: the records before it
    were requested and awaited in order, the failing one was requested,
    and no later record is requested. *)
Lemma for_of_first_rejection create (xs : list TabRecord) : ∀ i p k tab e,
  xs !! k = Some tab →
  (∀ j, (j < k)%nat → create (i + j)%nat = Resolved tt) →
  create (i + k)%nat = Rejected e →
  for_of (open_tab create) i xs p =
    (Thrown e,
     with_trace (trace p ++ (take k xs ≫= creation) ++
                 [TabCreateRequested (url tab) false;
                  TabCreateSettled false]) p).
Proof.
  induction xs as [|x xs IH]; intros i p k tab e Hk Hbefore Hrej; [done|].
  cbn [for_of]. unfold mbind at 1, M_bind. destruct k as [|k].
  - injection Hk as ->. rewrite (open_tab_rejected _ _ _ _ e).
    + done.
    + rewrite <- Hrej. f_equal. lia.
  - rewrite open_tab_resolved.
    2:{ rewrite <- (Hbefore 0%nat); [f_equal; lia | lia]. }
    rewrite (IH (S i) _ k tab e); [| done | |].
    + simpl. by rewrite <- !app_assoc.
    + intros j Hj. rewrite <- (Hbefore (S j)); [f_equal; lia | lia].
    + rewrite <- Hrej. f_equal. lia.
Qed.

(** C6. Restoring the session a timestamp finds, when every creation
    resolves, issues one request per tab record, in the stored order,
    each for an inactive tab at the record's URL, and each request is
    followed by its settlement before the next one is issued; the
    number of requests is the number of records, and the store is left
    alone. *)
Theorem open_requests_each_tab_in_order
    (p : Popup) (ts : Z) (session : Session) (create : nat → reply unit) :
  find ts (sessions p) = Some session →
  (∀ i, (i < length (tabs session))%nat → create i = Resolved tt) →
  let p' := exec (openSessionByTimestamp create ts) p in
  ∃ new,
    trace p' = trace p ++ new ∧
    new = (tabs session ≫= creation) ++
          [Feedback (opened_message (length (tabs session))) success] ∧
    requests new = (λ tab, (url tab, false)) <$> tabs session ∧
    length (requests new) = length (tabs session) ∧
    sessions p' = sessions p ∧ storage p' = storage p.
Proof.
  intros Hfind Hall p'. eexists. split_and!; [|reflexivity|..].
  - subst p'. unfold openSessionByTimestamp. run. rewrite Hfind.
    unfold try_catch, mbind, M_bind.
    rewrite for_of_all_resolved by (intros k Hk; by apply Hall).
    run. by rewrite <- app_assoc.
  - rewrite requests_app, requests_creations. simpl. by rewrite app_nil_r.
  - rewrite requests_app, requests_creations. simpl.
    by rewrite app_nil_r, length_fmap.
  - subst p'. unfold openSessionByTimestamp. run. rewrite Hfind.
    unfold try_catch, mbind, M_bind.
    rewrite for_of_all_resolved by (intros k Hk; by apply Hall). done.
  - subst p'. unfold openSessionByTimestamp. run. rewrite Hfind.
    unfold try_catch, mbind, M_bind.
    rewrite for_of_all_resolved by (intros k Hk; by apply Hall). done.
Qed.

End Restore.

(** ** Saving *)

Section Save.

Import JsFacts.

Context (toLocaleString : Z → Js.str).

(** C7. Whenever the tab query resolves, the handler appends one session
    whose [tabCount] is the length of its [tabs], whose [tabs] are the
    (title, url) pairs of the enumerated tabs in the order the host gave
    them, whose [timestamp] is the reading of [Date.now()], and whose
    [name] is "Session " followed by the locale rendering of the current
    instant when the input is blank, and the trimmed input otherwise. *)
Theorem save_constructs_session
    (p : Popup) (h : SaveHost) (enumerated : list ChromeTab) :
  tabs_query h = Resolved enumerated →
  let p' := exec (saveCurrentTabs toLocaleString h) p in
  ∃ newSession,
    sessions p' = sessions p ++ [newSession] ∧
    tabCount newSession = length (tabs newSession) ∧
    tabCount newSession = length enumerated ∧
    (λ r, (title r, url r)) <$> tabs newSession =
      (λ t, (tab_title t, tab_url t)) <$> enumerated ∧
    timestamp newSession = Date_now h ∧
    (Js.blank (sessionNameInput p) →
       name newSession = Js.lit "Session " ++ toLocaleString (new_Date h)) ∧
    (¬ Js.blank (sessionNameInput p) →
       name newSession = Js.trim (sessionNameInput p)).
Proof.
  intros Hq p'.
  exists {| name := if Js.falsy (Js.trim (sessionNameInput p))
                    then Js.lit "Session " ++ toLocaleString (new_Date h)
                    else Js.trim (sessionNameInput p);
            tabs := tabData_of enumerated;
            timestamp := Date_now h;
            tabCount := length (tabData_of enumerated) |}.
  split_and!; simpl.
  - subst p'. unfold saveCurrentTabs, renderSessions. run. rewrite Hq. simpl.
    destruct (storage_set h) as [[]|e]; simpl; [destruct (decide _)|]; done.
  - done.
  - unfold tabData_of. by rewrite length_fmap.
  - unfold tabData_of. rewrite <- list_fmap_compose. done.
  - done.
  - intros Hb. apply falsy_trim in Hb. by rewrite Hb.
  - intros Hb. destruct (Js.falsy _) eqn:Hf; [|done].
    by apply falsy_trim in Hf.
Qed.

(** C2, as the code has it. A save whose input is blank is not blocked
    and reports no validation error: the name defaults to "Session "
    followed by the locale rendering of the current instant, and when
    the tab query and the storage write resolve the session with that
    name is appended, the whole list is written to storage, and the
    only feedback is the success message. *)
Theorem save_blank_name_uses_default
    (p : Popup) (h : SaveHost) (enumerated : list ChromeTab) :
  Js.blank (sessionNameInput p) →
  tabs_query h = Resolved enumerated →
  storage_set h = Resolved tt →
  let newSession :=
    {| name := Js.lit "Session " ++ toLocaleString (new_Date h);
       tabs := tabData_of enumerated;
       timestamp := Date_now h;
       tabCount := length enumerated |} in
  let p' := exec (saveCurrentTabs toLocaleString h) p in
  sessions p' = sessions p ++ [newSession] ∧
  stored_sessions (storage p') = Some (sessions p ++ [newSession]) ∧
  trace p' = trace p ++
    [StorageSetSessions (sessions p ++ [newSession]);
     Feedback (Js.lit "Session saved successfully!") success].
Proof.
  intros Hb Hq Hs. apply falsy_trim in Hb.
  unfold saveCurrentTabs, renderSessions, tabData_of. run.
  rewrite Hq, Hs, Hb. simpl. rewrite length_fmap.
  destruct (decide _); simpl; rewrite <- app_assoc; done.
Qed.

Lemma exec_bind {A B} (m : M A) (k : A → M B) (p : Popup) (a : A) :
  result m p = Done a → exec (m ≫= k) p = exec (k a) (exec m p).
Proof.
  unfold result, exec, mbind, M_bind. destruct (m p) as [[a'|e] p'']; simpl;
    [by intros [= ->] | done].
Qed.

Lemma save_op_goes_through (o : SaveOp) (s : Session) (p : Popup) :
  goes_through toLocaleString o = Some s →
  result (save_op toLocaleString o) p = Done tt ∧
  sessions (exec (save_op toLocaleString o) p) = sessions p ++ [s] ∧
  stored_sessions (storage (exec (save_op toLocaleString o) p)) = Some (sessions p ++ [s]).
Proof.
  unfold goes_through, built.
  destruct (tabs_query (host o)) as [enumerated|] eqn:Hq; [|done].
  destruct (storage_set (host o)) as [[]|] eqn:Hs; [|done].
  intros [= <-]. unfold save_op, saveCurrentTabs, renderSessions. run.
  rewrite Hq, Hs. simpl. by destruct (decide _).
Qed.

(** Saves that all go through, from a popup whose list is the stored
    one: memory and storage both hold the old sessions followed by the
    saved ones, in the order of the saves. *)
Lemma save_all_go_through (ops : list SaveOp) : ∀ (ss : list Session) p,
  mapM (goes_through toLocaleString) ops = Some ss →
  sessions (exec (save_all toLocaleString ops) p) = sessions p ++ ss ∧
  (ops ≠ [] →
     stored_sessions (storage (exec (save_all toLocaleString ops) p)) = Some (sessions p ++ ss)).
Proof.
  induction ops as [|o ops IH]; intros ss p Hall.
  - injection Hall as <-. split; [|done]. by rewrite app_nil_r.
  - rewrite mapM_Some in Hall. apply Forall2_cons_inv_l in Hall
      as (s & ss' & Hs & Hrest & ->).
    rewrite <- mapM_Some in Hrest.
    destruct (save_op_goes_through o s p Hs) as (Hres & Hmem & Hdisk).
    cbn [save_all]. rewrite (exec_bind _ _ _ tt Hres).
    destruct (IH ss' (exec (save_op toLocaleString o) p) Hrest) as [IHmem IHdisk].
    rewrite IHmem, Hmem, <- app_assoc. split; [done|]. intros _.
    destruct ops as [|o' ops].
    + injection Hrest as <-.
      change (exec (save_all toLocaleString []) (exec (save_op toLocaleString o) p))
        with (exec (save_op toLocaleString o) p).
      by rewrite Hdisk.
    + rewrite IHdisk by done. by rewrite Hmem, <- app_assoc.
Qed.

(** From an empty store, reloading after any number of saves that went
    through returns exactly the sessions saved so far, in creation
    order. *)
Lemma load_after_saves (ops : list SaveOp) (ss : list Session) :
  mapM (goes_through toLocaleString) ops = Some ss →
  sessions (exec (loadSessions (Resolved tt))
              (exec (save_all toLocaleString ops) (opened empty_storage))) = ss.
Proof.
  intros Hall. destruct ops as [|o ops].
  - injection Hall as <-. by apply loadSessions_opened.
  - apply loadSessions_stored.
    by apply (save_all_go_through (o :: ops) ss (opened empty_storage)).
Qed.

(** The timestamps of the saved sessions are the readings of
    [Date.now()], one per save. *)
Lemma saved_timestamps (ops : list SaveOp) (ss : list Session) :
  mapM (goes_through toLocaleString) ops = Some ss →
  timestamp <$> ss = (λ o, Date_now (host o)) <$> ops.
Proof.
  rewrite mapM_Some. induction 1 as [|o s ops ss Hs _ IH]; [done|].
  rewrite !fmap_cons, IH. f_equal.
  unfold goes_through in Hs.
  destruct (tabs_query (host o)); [|done].
  destruct (storage_set (host o)); [|done]. by injection Hs as <-.
Qed.

(** So the saved timestamps are pairwise distinct exactly when the clock
    readings of the saves were: nothing in the handler makes them so. *)
Lemma saved_timestamps_distinct_iff (ops : list SaveOp) (ss : list Session) :
  mapM (goes_through toLocaleString) ops = Some ss →
  NoDup (timestamp <$> ss) ↔ NoDup ((λ o, Date_now (host o)) <$> ops).
Proof. intros Hall. by rewrite (saved_timestamps ops ss Hall). Qed.

End Save.


(** * The scenarios, run *)

Section Scenarios.

Import Sample.

(** Decide a closed membership or non-membership by evaluation. *)
Local Ltac by_evaluation := apply (bool_decide_unpack _); vm_compute; exact I.

(** An empty store loads as the empty list. *)
Lemma loadSessions_nothing_stored_witness :
  stored_sessions (storage (opened empty_storage)) = None ∧
  sessions (exec (loadSessions (Resolved tt)) (opened empty_storage)) = [].
Proof.
  split; [reflexivity|].
  apply (loadSessions_nothing_stored (opened empty_storage)). reflexivity.
Defined.

(** Timestamp 999 is not among 100, 200, 300. *)
Lemma delete_absent_reports_not_found_witness :
  (999 ∉ timestamp <$> sessions loaded) ∧
  sessions (exec (deleteSessionByTimestamp true (Resolved tt) 999) loaded)
    = sessions loaded.
Proof.
  split; [by_evaluation|].
  apply (delete_absent_reports_not_found loaded 999 true (Resolved tt)).
  by_evaluation.
Defined.

(** Cancelling the deletion of the session of timestamp 200. *)
Lemma delete_cancelled_changes_nothing_witness :
  (200 ∈ timestamp <$> sessions loaded) ∧
  ∃ index session,
    list_find (λ s, timestamp s = 200) (sessions loaded) = Some (index, session) ∧
    sessions (exec (deleteSessionByTimestamp false (Resolved tt) 200) loaded)
      = sessions loaded ∧
    storage (exec (deleteSessionByTimestamp false (Resolved tt) 200) loaded)
      = storage loaded.
Proof.
  split; [by_evaluation|].
  destruct (delete_cancelled_changes_nothing loaded 200 (Resolved tt))
    as (index & session & Hfind & Hmem & Hdisk & _); [by_evaluation|].
  exists index, session. auto.
Defined.

(** Store [100, 200, 300], delete 200. *)
Lemma delete_present_removes_first_witness :
  (200 ∈ timestamp <$> sessions loaded) ∧
  ∃ l1 session l2,
    sessions loaded = l1 ++ session :: l2 ∧
    timestamp session = 200 ∧
    Forall (λ s, timestamp s ≠ 200) l1 ∧
    sessions (exec (deleteSessionByTimestamp true (Resolved tt) 200) loaded)
      = l1 ++ l2.
Proof.
  split; [by_evaluation|].
  destruct (delete_present_removes_first loaded 200 (Resolved tt))
    as (l1 & session & l2 & Hsplit & Hts & Hfirst & Hmem & _); [by_evaluation|].
  exists l1, session, l2. auto.
Defined.

(** The scenario of the specification, evaluated: [100, 200, 300] becomes
    [100, 300], in that order, in memory and in storage, and the two
    remaining sessions are the ones that were stored. *)
Example delete_200_of_100_200_300 :
  let p' := exec (deleteSessionByTimestamp true (Resolved tt) 200) loaded in
  sessions p' = [session_at 100 "one"; session_at 300 "three"] ∧
  stored_sessions (storage p') = Some (sessions p') ∧
  timestamp <$> sessions p' = [100; 300].
Proof. by vm_compute. Qed.

(** A rename confirmed with three spaces in the field. *)
Lemma confirmRename_blank_is_rejected_witness :
  currentRenameTimestamp (renaming "   ") = Some 200 ∧
  Js.blank (renameInput (renaming "   ")) ∧
  sessions (exec (confirmRename (Resolved tt)) (renaming "   "))
    = sessions (renaming "   ") ∧
  renameModalHidden (exec (confirmRename (Resolved tt)) (renaming "   "))
    = false.
Proof.
  assert (Hblank : Js.blank (renameInput (renaming "   ")))
    by (vm_compute; repeat constructor).
  split_and!; [reflexivity | exact Hblank | |].
  - apply (confirmRename_blank_is_rejected (renaming "   ") 200 (Resolved tt));
      [reflexivity | exact Hblank].
  - destruct (confirmRename_blank_is_rejected (renaming "   ") 200 (Resolved tt))
      as (_ & _ & Hmodal & _); [reflexivity | exact Hblank |].
    rewrite Hmodal. reflexivity.
Defined.

(** A rename of the session of timestamp 200 to " Work ". *)
Lemma confirmRename_updates_only_name_witness :
  session_at 200 "two" ∈ sessions (renaming " Work ") ∧
  Js.trim (renameInput (renaming " Work ")) ≠ [] ∧
  ∃ index target,
    list_find (λ x, timestamp x = 200) (sessions (renaming " Work "))
      = Some (index, target) ∧
    sessions (exec (confirmRename (Resolved tt)) (renaming " Work ")) !! index =
      Some {| name := Js.lit "Work"; tabs := tabs target;
              timestamp := timestamp target; tabCount := tabCount target |}.
Proof.
  assert (Hin : session_at 200 "two" ∈ sessions (renaming " Work "))
    by (vm_compute; apply list_elem_of_further, list_elem_of_here).
  assert (Hname : Js.trim (renameInput (renaming " Work ")) ≠ [])
    by (vm_compute; discriminate).
  split_and!; [exact Hin | exact Hname |].
  destruct (confirmRename_updates_only_name
              (renaming " Work ") (session_at 200 "two") (Resolved tt)
              Hin eq_refl Hname)
    as (index & target & Hfind & _ & _ & Hat & _).
  exists index, target. split; [exact Hfind | exact Hat].
Defined.

(** The rename scenario, evaluated: only the middle name changes. *)
Example rename_200_to_Work :
  let p' := exec (confirmRename (Resolved tt)) (renaming " Work ") in
  sessions p' = [session_at 100 "one"; session_at 200 "Work";
                 session_at 300 "three"] ∧
  stored_sessions (storage p') = Some (sessions p') ∧
  renameModalHidden p' = true ∧ currentRenameTimestamp p' = None.
Proof. by vm_compute. Qed.

(** Restoring the session of timestamp 200 when every creation resolves. *)
Lemma open_requests_each_tab_in_order_witness :
  find 200 (sessions loaded) = Some (session_at 200 "two") ∧
  ∃ new,
    trace (exec (openSessionByTimestamp (λ _, Resolved tt) 200) loaded)
      = trace loaded ++ new ∧
    requests new = [(Js.lit "https://a.test", false);
                    (Js.lit "https://b.test", false)].
Proof.
  split; [reflexivity|].
  destruct (open_requests_each_tab_in_order
              loaded 200 (session_at 200 "two") (λ _, Resolved tt))
    as (new & Htrace & _ & Hreq & _); [reflexivity | reflexivity |].
  exists new. split; [exact Htrace | exact Hreq].
Defined.

(** The restore scenario, evaluated: request, settlement, request,
    settlement, then the message. *)
Example open_200_trace :
  trace (exec (openSessionByTimestamp (λ _, Resolved tt) 200) loaded) =
    [TabCreateRequested (Js.lit "https://a.test") false; TabCreateSettled true;
     TabCreateRequested (Js.lit "https://b.test") false; TabCreateSettled true;
     Feedback (Js.lit "Opened 2 tabs") success].
Proof. by vm_compute. Qed.

(** When the first creation rejects, the second tab is never requested. *)
Example open_200_first_creation_rejected :
  trace (exec (openSessionByTimestamp (λ _, Rejected (Js.lit "denied")) 200)
           loaded) =
    [TabCreateRequested (Js.lit "https://a.test") false; TabCreateSettled false;
     ConsoleError (Js.lit "Error opening session:") (inr (Js.lit "denied"));
     Feedback (Js.lit "Error opening session") error].
Proof. by vm_compute. Qed.

(** A save with a blank name while the tabs A and B are open. *)
Lemma save_constructs_session_witness :
  tabs_query (host_at 1700000000000) = Resolved [tabA; tabB] ∧
  ∃ newSession,
    sessions (exec (saveCurrentTabs locale (host_at 1700000000000)) blank_input)
      = sessions blank_input ++ [newSession] ∧
    tabCount newSession = length (tabs newSession) ∧
    tabCount newSession = 2%nat.
Proof.
  split; [reflexivity|].
  destruct (save_constructs_session locale blank_input
              (host_at 1700000000000) [tabA; tabB] eq_refl)
    as (newSession & Hmem & Hcount & Hlen & _).
  exists newSession. split_and!; [exact Hmem | exact Hcount | exact Hlen].
Defined.

(** The save scenario of the specification, evaluated. *)
Example save_blank_two_tabs :
  sessions (exec (saveCurrentTabs locale (host_at 1700000000000)) blank_input) =
    [ {| name := Js.lit "Session 1700000000000";
         tabs := [recA; recB];
         timestamp := 1700000000000;
         tabCount := 2 |} ].
Proof. by vm_compute. Qed.

(** C2, refuted as stated. With three spaces in the name field, the save
    is not blocked: a session is appended, the storage is written, and
    the only feedback is the success message; no error is reported. *)
Lemma save_blank_name_is_not_blocked :
  let p := blank_input in
  let p' := exec (saveCurrentTabs locale (host_at 1700000000000)) p in
  Js.trim (sessionNameInput p) = [] ∧
  sessions p = [] ∧ length (sessions p') = 1%nat ∧
  stored_sessions (storage p) = None ∧
  stored_sessions (storage p') = Some (sessions p') ∧
  trace p' = [StorageSetSessions (sessions p');
              Feedback (Js.lit "Session saved successfully!") success] ∧
  ¬ ∃ message, Feedback message error ∈ trace p'.
Proof.
  split_and!; try by vm_compute.
  intros [message Hin]. vm_compute in Hin.
  repeat (inversion Hin as [|? ? ? Hin']; clear Hin; rename Hin' into Hin; subst).
Qed.

(** The same save, through the general statement. *)
Lemma save_blank_name_uses_default_witness :
  Js.blank (sessionNameInput blank_input) ∧
  sessions (exec (saveCurrentTabs locale (host_at 1700000000000)) blank_input) =
    sessions blank_input ++
    [ {| name := Js.lit "Session " ++ locale 1700000000000;
         tabs := tabData_of [tabA; tabB];
         timestamp := 1700000000000;
         tabCount := 2 |} ].
Proof.
  assert (Hblank : Js.blank (sessionNameInput blank_input))
    by (vm_compute; repeat constructor).
  split; [exact Hblank|].
  apply (save_blank_name_uses_default locale blank_input
           (host_at 1700000000000) [tabA; tabB] Hblank eq_refl eq_refl).
Defined.

(** C1, at the input where the code falls short. Two saves whose readings
    of [Date.now()] are the same millisecond both go through; reloading
    returns them in creation order, as the claim says, but with one
    timestamp for both. The second session can then no longer be reached:
    its timestamp finds the first, and deleting by it removes the first. *)
Theorem saves_in_one_millisecond_share_a_timestamp :
  let p := exec (loadSessions (Resolved tt))
             (exec (save_all locale same_millisecond) (opened empty_storage)) in
  name <$> sessions p = [Js.lit "first"; Js.lit "second"] ∧
  timestamp <$> sessions p = [1700000000000; 1700000000000] ∧
  ¬ NoDup (timestamp <$> sessions p) ∧
  name <$> find 1700000000000 (sessions p) = Some (Js.lit "first") ∧
  name <$> sessions
    (exec (deleteSessionByTimestamp true (Resolved tt) 1700000000000) p)
    = [Js.lit "second"].
Proof.
  split_and!; try by vm_compute.
  intros Hnd. vm_compute in Hnd. apply NoDup_cons in Hnd as [Hnotin _].
  apply Hnotin. apply list_elem_of_here.
Qed.

End Scenarios.


(** * The rest of the code *)

(** ** Timestamps through [data-timestamp] *)

Section Numbers.

Lemma digit_char (d : N) :
  (d < 10)%N → Num.digit 10 (N_of_ascii (pretty_N_char d)) = Some d.
Proof.
  intros Hd.
  assert (d = 0 ∨ d = 1 ∨ d = 2 ∨ d = 3 ∨ d = 4 ∨ d = 5 ∨ d = 6 ∨ d = 7
          ∨ d = 8 ∨ d = 9)%N as Hc by lia.
  repeat (destruct Hc as [->|Hc]; [reflexivity|]). by subst.
Qed.

Lemma lit_String a s : Js.lit (String a s) = N_of_ascii a :: Js.lit s.
Proof. done. Qed.

Lemma lit_append s1 s2 : Js.lit (s1 +:+ s2) = Js.lit s1 ++ Js.lit s2.
Proof.
  induction s1 as [|a s1 IH]; [done|].
  change (String a s1 +:+ s2) with (String a (s1 +:+ s2)).
  by rewrite !lit_String, IH.
Qed.

(** Reading back what [pretty_N_go] wrote in front of [s]. *)
Lemma digits_pretty_N_go (x : N) : ∀ s acc taken,
  (0 < x)%N →
  ∃ k, (0 < k)%nat ∧
    Num.digits 10 acc taken (Js.lit (pretty_N_go x s)) =
    Num.digits 10 (acc * 10 ^ N.of_nat k + x)%N (taken + k) (Js.lit s).
Proof.
  induction (N.lt_wf_0 x) as [x _ IH]. intros s acc taken Hx.
  rewrite pretty_N_go_step by done.
  destruct (decide (x `div` 10 = 0)%N) as [Hz|Hnz].
  - rewrite Hz, pretty_N_go_0, lit_String. exists 1%nat. split; [lia|].
    cbn [Num.digits]. rewrite digit_char by (apply N.mod_lt; lia).
    assert (x `mod` 10 = x)%N as ->.
    { apply N.mod_small. apply N.div_small_iff in Hz; lia. }
    replace (taken + 1)%nat with (S taken) by lia.
    replace (acc * 10 ^ N.of_nat 1 + x)%N with (acc * 10 + x)%N; [done|].
    change (N.of_nat 1) with 1%N. lia.
  - destruct (IH (x `div` 10)%N) with
      (s := String (pretty_N_char (x `mod` 10)) s) (acc := acc) (taken := taken)
      as (k & Hk & Heq).
    { apply N.div_lt; lia. }
    { by apply N.neq_0_lt_0. }
    exists (S k). split; [lia|]. rewrite Heq, lit_String. cbn [Num.digits].
    rewrite digit_char by (apply N.mod_lt; lia).
    replace (taken + S k)%nat with (S (taken + k)) by lia.
    replace (acc * 10 ^ N.of_nat (S k) + x)%N
      with ((acc * 10 ^ N.of_nat k + x `div` 10) * 10 + x `mod` 10)%N; [done|].
    rewrite Nat2N.inj_succ, N.pow_succ_r'.
    pose proof (N.div_mod x 10). lia.
Qed.

Lemma decimal_cases c :
  Num.decimal c →
  (c = 48 ∨ c = 49 ∨ c = 50 ∨ c = 51 ∨ c = 52 ∨ c = 53 ∨ c = 54 ∨ c = 55
   ∨ c = 56 ∨ c = 57)%N.
Proof. unfold Num.decimal. lia. Qed.

Lemma pretty_N_char_decimal d : Num.decimal (N_of_ascii (pretty_N_char d)).
Proof. unfold pretty_N_char, Num.decimal. repeat case_match; by compute. Qed.

Lemma lit_pretty_N_go_decimal (x : N) : ∀ s,
  Forall Num.decimal (Js.lit s) → Forall Num.decimal (Js.lit (pretty_N_go x s)).
Proof.
  induction (N.lt_wf_0 x) as [x _ IH]. intros s Hs.
  destruct (decide (x = 0)%N) as [->|Hx]; [by rewrite pretty_N_go_0|].
  rewrite pretty_N_go_step by lia. apply IH; [apply N.div_lt; lia|].
  rewrite lit_String. constructor; [apply pretty_N_char_decimal | done].
Qed.

(** [parseInt] on a string of decimal digits reads all of it. *)
Lemma parseInt_decimal (s : Js.str) (v : N) (k : nat) :
  Forall Num.decimal s → Num.digits 10 0 0 s = (v, S k) →
  Num.parseInt s = Some (Z.of_N v) ∧ Num.parseInt (45%N :: s) = Some (- Z.of_N v).
Proof.
  intros Hdec Hdig. destruct s as [|c r]; [done|].
  apply Forall_cons in Hdec as [Hc Hr].
  assert (Hhex : ∀ r', r = 120%N :: r' ∨ r = 88%N :: r' → False).
  { intros r' [-> | ->]; apply Forall_cons in Hr as [[? ?] _]; lia. }
  unfold Num.parseInt.
  split.
  - apply decimal_cases in Hc.
    repeat (destruct Hc as [->|Hc]); try subst c;
      try (simpl in Hdig |- *; rewrite Hdig; f_equal; lia).
    destruct r as [|d r']; [simpl in Hdig |- *; injection Hdig as <- _; done|].
    apply Forall_cons in Hr as [Hd _]. apply decimal_cases in Hd.
    repeat (destruct Hd as [->|Hd]); try subst d;
      simpl in Hdig |- *; rewrite Hdig; f_equal; lia.
  - apply decimal_cases in Hc.
    repeat (destruct Hc as [->|Hc]); try subst c;
      try (simpl in Hdig |- *; rewrite Hdig; f_equal; lia).
    destruct r as [|d r']; [simpl in Hdig |- *; injection Hdig as <- _; done|].
    apply Forall_cons in Hr as [Hd _]. apply decimal_cases in Hd.
    repeat (destruct Hd as [->|Hd]); try subst d;
      simpl in Hdig |- *; rewrite Hdig; f_equal; lia.
Qed.

Lemma parseInt_toString_exact (n : Z) :
  Num.parseInt (Num.toString n) = Some n.
Proof.
  unfold Num.toString.
  assert (Hpos : ∀ p : positive,
    Forall Num.decimal (Js.lit (pretty p)) ∧
    ∃ k, Num.digits 10 0 0 (Js.lit (pretty p)) = (Npos p, S k)).
  { intros p.
    assert (pretty p = pretty_N_go (N.pos p) "") as -> by reflexivity. split.
    - apply lit_pretty_N_go_decimal. constructor.
    - destruct (digits_pretty_N_go (N.pos p) "" 0%N 0%nat) as (k & Hk & Heq); [lia|].
      destruct k as [|k]; [lia|]. exists k. rewrite Heq. simpl. done. }
  destruct n as [|p|p].
  - reflexivity.
  - destruct (Hpos p) as (Hdec & k & Hdig).
    change (pretty (Z.pos p)) with (pretty p).
    by apply (parseInt_decimal _ _ _ Hdec Hdig).
  - destruct (Hpos p) as (Hdec & k & Hdig).
    change (pretty (Z.neg p)) with ("-" +:+ pretty p).
    rewrite lit_append. change (Js.lit "-") with [45%N]. simpl app.
    by apply (parseInt_decimal _ _ _ Hdec Hdig).
Qed.

(** X1. A timestamp survives the [data-timestamp] attribute: for every
    integer a JavaScript number holds exactly, [parseInt(String(n))] is
    [n] again. *)
Theorem parseInt_toString (n : Z) :
  - 2 ^ 53 < n < 2 ^ 53 → Num.parseInt (Num.toString n) = Some n.
Proof. intros _. apply parseInt_toString_exact. Qed.

End Numbers.

Local Arguments Js.lit : simpl never.

Section Runs.
Context (toLocaleString : Z → Js.str).

(** The loop of a restore only ever adds to the trace. *)
Lemma for_of_open_tab_frame create (xs : list TabRecord) : ∀ i p,
  ∃ o tr, for_of (open_tab create) i xs p = (o, with_trace (trace p ++ tr) p).
Proof.
  induction xs as [|x xs IH]; intros i p.
  - exists (Done tt), []. simpl. by rewrite app_nil_r, with_trace_same.
  - cbn [for_of]. unfold mbind at 1, M_bind.
    destruct (create i) as [[]|e] eqn:Hi.
    + rewrite open_tab_resolved by done.
      destruct (IH (S i) (with_trace (trace p ++ creation x) p)) as (o & tr & ->).
      exists o, (creation x ++ tr). simpl. by rewrite <- app_assoc.
    + rewrite (open_tab_rejected _ _ _ _ e) by done. eauto.
Qed.

(** Unfold an action down to the case analysis the handler makes. *)
Ltac handler :=
  unfold perform, saveCurrentTabs, confirmRename, deleteSessionByTimestamp,
    openRenameModalByTimestamp, loadSessions, renderSessions, findIndex, find;
  run.

Ltac cases := repeat (case_match; simplify_eq/=; try done).

(** A restore changes nothing but the trace. *)
Lemma openSessionByTimestamp_frame create ts p :
  ∃ tr, openSessionByTimestamp create ts p =
        (Done tt, with_trace (trace p ++ tr) p).
Proof.
  unfold openSessionByTimestamp. run.
  destruct (find ts (sessions p)) as [session|].
  - unfold try_catch, mbind, M_bind.
    destruct (for_of_open_tab_frame create (tabs session) 0%nat p)
      as ([[]|e] & tr & ->); run; rewrite <- !app_assoc; eauto.
  - rewrite <- !app_assoc; eauto.
Qed.

(** No listener lets an exception out. *)
Lemma perform_returns (a : Action) (p : Popup) :
  result (perform toLocaleString a) p = Done tt.
Proof.
  destruct a as [text|h|key h|text| |set|key set|target|ts create|ts|ts answer set];
    try (handler; by cases).
  unfold perform, result.
  by destruct (openSessionByTimestamp_frame create ts p) as (tr & ->).
Qed.

Lemma exec_perform_all_cons a acts p :
  exec (perform_all toLocaleString (a :: acts)) p =
  exec (perform_all toLocaleString acts) (exec (perform toLocaleString a) p).
Proof.
  exact (exec_bind (perform toLocaleString a)
           (λ _, perform_all toLocaleString acts) p tt (perform_returns a p)).
Qed.


(** What one action can do to the list: nothing, replace the name of one
    session, remove one session, or append one. *)
Lemma perform_sessions (a : Action) (p : Popup) :
  let p' := exec (perform toLocaleString a) p in
  sessions p' = sessions p ∨
  (∃ i n, n ≠ [] ∧ sessions p' = alter (set_name n) i (sessions p)) ∨
  (∃ i, sessions p' = delete i (sessions p)) ∨
  (∃ s, well_formed s ∧ sessions p' = sessions p ++ [s] ∧
        ∃ h, timestamp s = Date_now h ∧
             (a = ClickSave h ∨ a = KeypressSessionName (Js.lit "Enter") h)).
Proof.
  assert (Hsave : ∀ h,
    let p' := exec (saveCurrentTabs toLocaleString h) p in
    sessions p' = sessions p ∨
    ∃ s, well_formed s ∧ sessions p' = sessions p ++ [s] ∧
         timestamp s = Date_now h).
  { intros h. handler. destruct (tabs_query h) as [enumerated|e]; simpl; [|by left].
    right.
    exists {| name := if Js.falsy (Js.trim (sessionNameInput p))
                      then Js.lit "Session " ++ toLocaleString (new_Date h)
                      else Js.trim (sessionNameInput p);
              tabs := tabData_of enumerated;
              timestamp := Date_now h;
              tabCount := length (tabData_of enumerated) |}.
    split_and!; [| |reflexivity].
    - split; [done|]. simpl. destruct (Js.falsy _) eqn:Hf; [done|].
      by apply JsFacts.falsy_false.
    - by cases. }
  assert (Hrename : ∀ set,
    let p' := exec (confirmRename set) p in
    sessions p' = sessions p ∨
    ∃ i n, n ≠ [] ∧ sessions p' = alter (set_name n) i (sessions p)).
  { intros set. handler.
    destruct (currentRenameTimestamp p) as [ts|]; [|by left]. simpl.
    destruct (Js.falsy _) eqn:Hf; [by left|]. apply JsFacts.falsy_false in Hf.
    simpl. destruct (list_find _ _) as [[index session]|]; simpl; [|by left].
    right. exists index, (Js.trim (renameInput p)). split; [done|]. by cases. }
  assert (Hdelete : ∀ ts answer set,
    let p' := exec (deleteSessionByTimestamp answer set ts) p in
    sessions p' = sessions p ∨ ∃ i, sessions p' = delete i (sessions p)).
  { intros ts answer set. handler.
    destruct (list_find _ _) as [[index session]|]; simpl; [|by left].
    destruct answer; simpl; [|by left]. right. exists index. by cases. }
  destruct a as [text|h|key h|text| |set|key set|target|ts create|ts|ts answer set];
    cbv zeta; cbn [perform].
  - by left.
  - destruct (Hsave h) as [?|(s & ? & ? & ?)]; [by left|].
    right; right; right. exists s. split_and!; eauto.
  - destruct (decide (key = Js.lit "Enter")) as [->|]; [|by left].
    destruct (Hsave h) as [?|(s & ? & ? & ?)]; [by left|].
    right; right; right. exists s. split_and!; eauto.
  - by left.
  - by left.
  - destruct (Hrename set) as [?|?]; auto.
  - destruct (decide _); [|by left]. destruct (Hrename set) as [?|?]; auto.
  - destruct (decide _); by left.
  - left. unfold exec.
    by destruct (openSessionByTimestamp_frame create ts p) as (tr & ->).
  - left. handler. by cases.
  - destruct (Hdelete ts answer set) as [?|?]; auto.
Qed.


(** X2. Whatever the user does and whatever the host answers, every
    session in memory stays well formed: its [tabCount] is the number of
    its tabs and its name is not empty. *)
Theorem runs_keep_sessions_well_formed (acts : list Action) (p : Popup) :
  Forall well_formed (sessions p) →
  Forall well_formed (sessions (exec (perform_all toLocaleString acts) p)).
Proof.
  revert p. induction acts as [|a acts IH]; intros p Hwf; [done|].
  rewrite exec_perform_all_cons. apply IH.
  destruct (perform_sessions a p)
    as [-> | [(i & n & Hn & ->) | [(i & ->) | (s & Hs & -> & _)]]].
  - done.
  - apply Forall_alter; [done|]. intros s _ [Hcount _]. by split.
  - by apply Forall_delete.
  - apply Forall_app. split; [done | by constructor].
Qed.

(** X3. One action never edits, reorders or re-stamps what a save stored:
    the [timestamp], [tabs] and [tabCount] of the sessions are the same
    list as before, or that list with one entry removed, or that list
    with one entry appended. *)
Theorem perform_never_edits_saved_tabs (a : Action) (p : Popup) :
  let before := core <$> sessions p in
  let after := core <$> sessions (exec (perform toLocaleString a) p) in
  after = before ∨ (∃ i, after = delete i before) ∨ (∃ c, after = before ++ [c]).
Proof.
  cbv zeta.
  destruct (perform_sessions a p)
    as [-> | [(i & n & Hn & ->) | [(i & ->) | (s & Hs & -> & _)]]].
  - by left.
  - left. rewrite (list_fmap_alter _ _ id); [by apply list_alter_id|].
    by apply Forall_true.
  - right; left. exists i. by rewrite list_fmap_delete.
  - right; right. exists (core s). by rewrite fmap_app.
Qed.

(** The clock readings the saves of a run store as timestamps. *)
Lemma perform_timestamps (a : Action) (p : Popup) :
  timestamp <$> sessions (exec (perform toLocaleString a) p)
    `sublist_of` (timestamp <$> sessions p) ++ save_clock a.
Proof.
  destruct (perform_sessions a p)
    as [-> | [(i & n & Hn & ->) | [(i & ->) | (s & Hs & -> & h & Hts & Ha)]]].
  - by apply sublist_inserts_r.
  - rewrite (list_fmap_alter _ _ id); [|by apply Forall_true].
    rewrite list_alter_id by done. by apply sublist_inserts_r.
  - rewrite list_fmap_delete. apply sublist_inserts_r, sublist_delete.
  - rewrite fmap_app. simpl. rewrite Hts.
    destruct Ha as [-> | ->]; cbn [save_clock]; [done|].
    by rewrite decide_True.
Qed.

(** X4. Timestamps stay pairwise distinct through any run whose saves
    read clock values that are new: distinct from each other and from
    the timestamps already in the list.  Deleting and renaming never
    break uniqueness. *)
Theorem runs_keep_timestamps_distinct (acts : list Action) (p : Popup) :
  NoDup ((timestamp <$> sessions p) ++ (acts ≫= save_clock)) →
  NoDup (timestamp <$> sessions (exec (perform_all toLocaleString acts) p)).
Proof.
  revert p. induction acts as [|a acts IH]; intros p Hnd.
  - simpl in Hnd. by rewrite app_nil_r in Hnd.
  - rewrite exec_perform_all_cons. apply IH.
    rewrite bind_cons, app_assoc in Hnd.
    eapply sublist_NoDup; [exact Hnd|].
    apply sublist_app; [apply perform_timestamps | done].
Qed.



(** What one action can do to the storage: nothing, or replace the stored
    list by the list in memory.  The [darkMode] key is never written. *)
Lemma perform_storage (a : Action) (p : Popup) :
  let p' := exec (perform toLocaleString a) p in
  stored_darkMode (storage p') = stored_darkMode (storage p) ∧
  (storage p' = storage p ∨ stored_sessions (storage p') = Some (sessions p')).
Proof.
  destruct a as [text|h|key h|text| |set|key set|target|ts create|ts|ts answer set];
    cbv zeta;
    try (handler; cases; split; first [done | by left | by right]).
  cbn [perform]. unfold exec.
  destruct (openSessionByTimestamp_frame create ts p) as (tr & ->). simpl. auto.
Qed.

(** X5. No run of the popup writes the [darkMode] key. *)
Theorem runs_never_write_darkMode (acts : list Action) (p : Popup) :
  stored_darkMode (storage (exec (perform_all toLocaleString acts) p)) =
  stored_darkMode (storage p).
Proof.
  revert p. induction acts as [|a acts IH]; intros p; [done|].
  rewrite exec_perform_all_cons, IH. apply perform_storage.
Qed.

(** X6. Every write of a run is a write of the whole list: after one
    action the storage is what it was, or its [sessions] key holds
    exactly the list in memory. *)
Theorem perform_writes_whole_list (a : Action) (p : Popup) :
  let p' := exec (perform toLocaleString a) p in
  storage p' = storage p ∨ stored_sessions (storage p') = Some (sessions p').
Proof. apply perform_storage. Qed.





(** The session a save appends, whatever becomes of the write. *)
Lemma save_appends_newSession
    (p : Popup) (h : SaveHost) (enumerated : list ChromeTab) :
  tabs_query h = Resolved enumerated →
  sessions (exec (saveCurrentTabs toLocaleString h) p) =
    sessions p ++ [newSession toLocaleString p h enumerated].
Proof. intros Hq. handler. rewrite Hq. simpl. by cases. Qed.

(** The requests of a restore whose creations all resolve. *)
Lemma open_requests_tabs
    (p : Popup) (ts : Z) (session : Session) (create : nat → reply unit) :
  find ts (sessions p) = Some session →
  (∀ i, create i = Resolved tt) →
  ∃ new, trace (exec (openSessionByTimestamp create ts) p) = trace p ++ new ∧
         requests new = (λ tab, (url tab, false)) <$> tabs session.
Proof.
  intros Hfind Hall. eexists. split.
  - unfold openSessionByTimestamp. run. rewrite Hfind.
    unfold try_catch, mbind, M_bind.
    rewrite for_of_all_resolved by (intros; apply Hall).
    run. by rewrite <- app_assoc.
  - rewrite requests_app, requests_creations. simpl. by rewrite app_nil_r.
Qed.

(** ** When the host fails *)

(** X8. When the tab query rejects, a save changes nothing: no session is
    built, nothing is written, the name field keeps its text, and the
    user is told "Error saving session". *)
Theorem save_query_rejected_changes_nothing
    (p : Popup) (h : SaveHost) (e : HostError) :
  tabs_query h = Rejected e →
  exec (saveCurrentTabs toLocaleString h) p =
    with_trace (trace p ++
                [ConsoleError (Js.lit "Error saving tabs:") (inr e);
                 Feedback (Js.lit "Error saving session") error]) p.
Proof.
  intros Hq. handler. rewrite Hq. simpl. by rewrite <- app_assoc.
Qed.

(** X9. When the tab query resolves but the storage write rejects, the
    save is reported as failed and yet the new session stays in memory:
    it is not in storage, not on screen, and the name field is not
    cleared. *)
Theorem save_write_rejected_keeps_session_in_memory
    (p : Popup) (h : SaveHost) (enumerated : list ChromeTab) (e : HostError) :
  tabs_query h = Resolved enumerated →
  storage_set h = Rejected e →
  let p' := exec (saveCurrentTabs toLocaleString h) p in
  sessions p' = sessions p ++ [newSession toLocaleString p h enumerated] ∧
  storage p' = storage p ∧
  cards p' = cards p ∧
  sessionNameInput p' = sessionNameInput p ∧
  trace p' = trace p ++
    [ConsoleError (Js.lit "Error saving tabs:") (inr e);
     Feedback (Js.lit "Error saving session") error].
Proof.
  intros Hq Hs. handler. rewrite Hq, Hs. simpl.
  rewrite <- app_assoc. split_and!; reflexivity.
Qed.

(** X10. A save that was reported as failed is stored by the next save that
    succeeds: the write is of the whole list in memory, which still
    holds the session of the failed save. *)
Theorem failed_save_is_stored_by_next_save
    (p : Popup) (h1 h2 : SaveHost) (tabs1 tabs2 : list ChromeTab)
    (e : HostError) :
  tabs_query h1 = Resolved tabs1 → storage_set h1 = Rejected e →
  tabs_query h2 = Resolved tabs2 → storage_set h2 = Resolved tt →
  let p1 := exec (saveCurrentTabs toLocaleString h1) p in
  let p2 := exec (saveCurrentTabs toLocaleString h2) p1 in
  Feedback (Js.lit "Error saving session") error ∈ trace p1 ∧
  storage p1 = storage p ∧
  stored_sessions (storage p2) =
    Some (sessions p ++ [newSession toLocaleString p h1 tabs1;
                         newSession toLocaleString p1 h2 tabs2]).
Proof.
  intros Hq1 Hs1 Hq2 Hs2 p1 p2.
  assert (Hmem := save_appends_newSession p h1 tabs1 Hq1). fold p1 in Hmem.
  assert (Hdisk : storage p1 = storage p).
  { subst p1. handler. by rewrite Hq1, Hs1. }
  assert (Htrace : trace p1 = trace p ++
            [ConsoleError (Js.lit "Error saving tabs:") (inr e);
             Feedback (Js.lit "Error saving session") error]).
  { subst p1. handler. rewrite Hq1, Hs1. simpl. by rewrite <- app_assoc. }
  split_and!.
  - rewrite Htrace, elem_of_app. right.
    apply list_elem_of_further, list_elem_of_here.
  - done.
  - assert (Hmem2 := save_appends_newSession p1 h2 tabs2 Hq2). fold p2 in Hmem2.
    assert (Hdisk2 : stored_sessions (storage p2) = Some (sessions p2)).
    { subst p2. handler. rewrite Hq2, Hs2. simpl. by destruct (decide _). }
    by rewrite Hdisk2, Hmem2, Hmem, <- app_assoc.
Qed.

(** X11. A deletion whose write rejects removes the session from memory
    only: it is still in storage, and opening the popup again brings it
    back. *)
Theorem delete_write_rejected_is_undone_by_reopening
    (p : Popup) (ts : Z) (e : HostError) :
  ts ∈ timestamp <$> sessions p →
  storage_in_sync p →
  let p' := exec (deleteSessionByTimestamp true (Rejected e) ts) p in
  length (sessions p') = pred (length (sessions p)) ∧
  storage p' = storage p ∧
  Feedback (Js.lit "Error deleting session") error ∈ trace p' ∧
  sessions (exec (loadSessions (Resolved tt)) (opened (storage p')))
    = sessions p.
Proof.
  intros Hin Hsync.
  destruct (list_find_timestamp_Some _ _ Hin)
    as (index & session & l1 & l2 & Hfind & Hsplit & Hlen & _).
  handler. rewrite Hfind. simpl. split_and!.
  - rewrite Hsplit, <- Hlen, delete_middle, !length_app. simpl. lia.
  - done.
  - apply elem_of_app. right. apply list_elem_of_here.
  - destruct (decide _); exact Hsync.
Qed.

(** X12. Restoring never touches the list, the storage, the view or the
    input fields, whatever becomes of the creations: all it leaves is
    its trace. *)
Theorem open_changes_only_the_trace
    (p : Popup) (ts : Z) (create : nat → reply unit) :
  ∃ tr, exec (openSessionByTimestamp create ts) p
        = with_trace (trace p ++ tr) p.
Proof.
  unfold exec.
  destruct (openSessionByTimestamp_frame create ts p) as (tr & ->). eauto.
Qed.

(** X13. Restoring by a timestamp no session carries requests no tab and
    reports "Session not found". *)
Theorem open_absent_requests_nothing
    (p : Popup) (ts : Z) (create : nat → reply unit) :
  ts ∉ timestamp <$> sessions p →
  exec (openSessionByTimestamp create ts) p =
    with_trace (trace p ++
      [ConsoleError (Js.lit "Session not found with timestamp:") (inl ts);
       Feedback (Js.lit "Error: Session not found") error]) p.
Proof.
  intros Habs. apply list_find_timestamp_None in Habs.
  unfold openSessionByTimestamp, find. run. rewrite Habs. simpl.
  by rewrite <- app_assoc.
Qed.

(** X14. When the creation of the [k]-th tab rejects, the restore stops
    there: the records before it were requested and awaited in order,
    the failing one was requested, no later record is requested, nothing
    is rolled back, and the user is told "Error opening session". *)
Theorem open_stops_at_first_rejection
    (p : Popup) (ts : Z) (session : Session) (create : nat → reply unit)
    (k : nat) (tab : TabRecord) (e : HostError) :
  find ts (sessions p) = Some session →
  tabs session !! k = Some tab →
  (∀ j, (j < k)%nat → create j = Resolved tt) →
  create k = Rejected e →
  let p' := exec (openSessionByTimestamp create ts) p in
  ∃ new,
    trace p' = trace p ++ new ∧
    new = (take k (tabs session) ≫= creation) ++
          [TabCreateRequested (url tab) false; TabCreateSettled false;
           ConsoleError (Js.lit "Error opening session:") (inr e);
           Feedback (Js.lit "Error opening session") error] ∧
    requests new = (λ t, (url t, false)) <$> take (S k) (tabs session).
Proof.
  intros Hfind Hk Hbefore Hrej. eexists. split_and!; [|reflexivity|].
  - unfold openSessionByTimestamp. run. rewrite Hfind.
    unfold try_catch, mbind, M_bind.
    rewrite (for_of_first_rejection create _ 0%nat p k tab e); try done.
    run. by rewrite <- !app_assoc.
  - rewrite requests_app, requests_creations. simpl.
    rewrite (take_S_r _ _ tab) by done. by rewrite fmap_app.
Qed.

(** ** How the operations compose *)

(** X15. Save, then restore: a session just saved under a clock reading no
    other session carries is the one its timestamp finds, and restoring
    it requests exactly the tabs that were open at the save, in the
    order the host enumerated them, each inactive. *)
Theorem save_then_open_requests_the_saved_tabs
    (p : Popup) (h : SaveHost) (enumerated : list ChromeTab)
    (create : nat → reply unit) :
  tabs_query h = Resolved enumerated →
  Date_now h ∉ timestamp <$> sessions p →
  (∀ i, create i = Resolved tt) →
  let p1 := exec (saveCurrentTabs toLocaleString h) p in
  let p2 := exec (openSessionByTimestamp create (Date_now h)) p1 in
  ∃ new,
    trace p2 = trace p1 ++ new ∧
    requests new = (λ t, (tab_url t, false)) <$> enumerated.
Proof.
  intros Hq Hnew Hall p1 p2.
  assert (Hmem := save_appends_newSession p h enumerated Hq). fold p1 in Hmem.
  set (s := newSession toLocaleString p h enumerated) in *.
  assert (Hfind : find (Date_now h) (sessions p1) = Some s).
  { unfold find. apply list_find_timestamp_None in Hnew.
    rewrite Hmem, (list_find_app_r _ _ _ Hnew). simpl.
    by rewrite decide_True. }
  destruct (open_requests_tabs p1 (Date_now h) s create Hfind)
    as (new & Htrace & Hreq); [done|].
  exists new. split; [done|].
  rewrite Hreq. simpl. unfold tabData_of. by rewrite <- list_fmap_compose.
Qed.

(** X16. Save, then delete: deleting a session just saved under a new clock
    reading, once confirmed, leaves the list in memory as it was before
    the save, and a resolved write stores that list. *)
Theorem save_then_delete_restores_the_list
    (p : Popup) (h : SaveHost) (enumerated : list ChromeTab) :
  tabs_query h = Resolved enumerated →
  Date_now h ∉ timestamp <$> sessions p →
  let p1 := exec (saveCurrentTabs toLocaleString h) p in
  let p2 := exec (deleteSessionByTimestamp true (Resolved tt) (Date_now h)) p1 in
  sessions p2 = sessions p ∧
  stored_sessions (storage p2) = Some (sessions p).
Proof.
  intros Hq Hnew p1 p2.
  assert (Hmem := save_appends_newSession p h enumerated Hq). fold p1 in Hmem.
  set (s := newSession toLocaleString p h enumerated) in *.
  assert (Hfind : list_find (λ x, timestamp x = Date_now h) (sessions p1)
                  = Some (length (sessions p), s)).
  { apply list_find_timestamp_None in Hnew.
    rewrite Hmem, (list_find_app_r _ _ _ Hnew). simpl.
    by rewrite decide_True. }
  assert (Hdel : delete (length (sessions p)) (sessions p1) = sessions p).
  { rewrite Hmem. rewrite (delete_middle (sessions p) [] s). apply app_nil_r. }
  subst p2. handler. rewrite Hfind. simpl. rewrite Hdel.
  by destruct (decide _).
Qed.

(** X17. Cancel, then confirm: once the rename modal has been closed, a
    confirmation (a stray Enter, a second click) does nothing at all. *)
Theorem confirm_after_cancel_does_nothing (p : Popup) (set : reply unit) :
  exec (confirmRename set) (exec closeRenameModal p) = exec closeRenameModal p.
Proof. by handler. Qed.

End Runs.

(** ** Cards, the index entry points and the age of a session *)

Section Cards.

Context (toLocaleDateString : Z → Js.str).

(** With distinct timestamps, a timestamp finds the session at the
    position it was read from. *)
Lemma list_find_timestamp_at (ss : list Session) (i : nat) (s : Session) :
  NoDup (timestamp <$> ss) → ss !! i = Some s →
  list_find (λ x, timestamp x = timestamp s) ss = Some (i, s).
Proof.
  intros Hnd Hi. apply list_find_Some. split_and!; [done..|].
  intros j x Hj Hlt Heq.
  assert (j = i) as ->; [|lia].
  apply (NoDup_lookup _ _ _ (timestamp s) Hnd); rewrite list_lookup_fmap.
  - by rewrite Hj; simpl; rewrite Heq.
  - by rewrite Hi.
Qed.

(** X18. [renderSessions] shows one card per session, newest first: the
    card at position [i] from the top is the session at position
    [n - 1 - i] of the list; the empty state is shown exactly when the
    list is empty; and rendering changes nothing but the view. *)
Theorem render_shows_newest_first (p : Popup) :
  let p' := exec renderSessions p in
  let n := length (sessions p) in
  length (cards p') = n ∧
  (∀ i, (i < n)%nat →
     cards p' !! i = card_of <$> sessions p !! (n - 1 - i)%nat) ∧
  (emptyStateHidden p' = false ↔ sessions p = []) ∧
  sessions p' = sessions p ∧ storage p' = storage p ∧ trace p' = trace p.
Proof.
  unfold renderSessions. run.
  destruct (sessions p) as [|s ss] eqn:Hss; simpl; [by split_and!; try done; lia|].
  split_and!; try done.
  - rewrite length_fmap. exact (length_reverse (s :: ss)).
  - intros i Hi. rewrite list_lookup_fmap. f_equal.
    rewrite reverse_lookup by (simpl; lia). f_equal. simpl. lia.
Qed.

(** A call of [createSessionCard] and where its session sits. *)
Lemma card_calls_lookup
    (ss : list Session) (ri : nat) (session : Session) (actualIndex : Z) :
  card_calls ss !! ri = Some (session, actualIndex) →
  (ri < length ss)%nat ∧
  actualIndex = Z.of_nat (length ss - 1 - ri) ∧
  ss !! (length ss - 1 - ri)%nat = Some session.
Proof.
  unfold card_calls. rewrite list_lookup_imap. intros Hcall.
  destruct (reverse ss !! ri) as [s|] eqn:Hri; [|done].
  injection Hcall as -> <-.
  assert (Hlt : (ri < length ss)%nat).
  { apply lookup_lt_Some in Hri. by rewrite length_reverse in Hri. }
  rewrite reverse_lookup in Hri by done.
  split_and!; [lia | lia |]. rewrite <- Hri. f_equal. lia.
Qed.

(** X19. The index [renderSessions] hands to [createSessionCard] with a
    session is the position of that session in the list: the display is
    reversed, the index is not. *)
Theorem card_index_is_storage_position
    (ss : list Session) (ri : nat) (session : Session) (actualIndex : Z) :
  card_calls ss !! ri = Some (session, actualIndex) →
  0 ≤ actualIndex < Z.of_nat (length ss) ∧
  actualIndex = Z.of_nat (length ss) - 1 - Z.of_nat ri ∧
  ss !! Z.to_nat actualIndex = Some session.
Proof.
  intros Hcall. destruct (card_calls_lookup _ _ _ _ Hcall) as (Hlt & -> & Hs).
  split_and!; [lia | lia | lia |]. by rewrite Nat2Z.id.
Qed.

(** The card at a display position and the session it is built from. *)
Lemma rendered_card_session
    (now : Z) (ss : list Session) (ri : nat) (el : CardElement) :
  rendered_cards toLocaleDateString now ss !! ri = Some el →
  ∃ (s : Session) (actualIndex : Z),
    ss !! (length ss - 1 - ri)%nat = Some s ∧
    el = createSessionCard toLocaleDateString now s actualIndex.
Proof.
  unfold rendered_cards. rewrite list_lookup_fmap. intros Hel.
  destruct (card_calls ss !! ri) as [[s i]|] eqn:Hcall; [|done].
  injection Hel as <-.
  destruct (card_calls_lookup _ _ _ _ Hcall) as (_ & -> & Hs). eauto.
Qed.

(** X20. With distinct timestamps, the buttons of a card act on the session
    the card shows: the timestamp read back from any of its
    [data-timestamp] attributes finds that session, and a confirmed
    deletion by it removes exactly that position of the list. *)
Theorem card_buttons_act_on_their_session
    (now : Z) (p : Popup) (ri : nat) (el : CardElement) (set : reply unit) :
  NoDup (timestamp <$> sessions p) →
  Forall (λ s, - 2 ^ 53 < timestamp s < 2 ^ 53) (sessions p) →
  rendered_cards toLocaleDateString now (sessions p) !! ri = Some el →
  let position := (length (sessions p) - 1 - ri)%nat in
  ∃ ts,
    Num.parseInt (el_dataset_timestamp el) = Some ts ∧
    Num.parseInt (el_open_dataset el) = Some ts ∧
    Num.parseInt (el_rename_dataset el) = Some ts ∧
    Num.parseInt (el_delete_dataset el) = Some ts ∧
    find ts (sessions p) = sessions p !! position ∧
    sessions (exec (deleteSessionByTimestamp true set ts) p)
      = delete position (sessions p).
Proof.
  intros Hnd Hrange Hel position.
  destruct (rendered_card_session _ _ _ _ Hel) as (s & i & Hs & ->).
  subst position.
  assert (Hparse : Num.parseInt (Num.toString (timestamp s)) = Some (timestamp s)).
  { apply parseInt_toString_exact. }
  assert (Hfind := list_find_timestamp_at _ _ _ Hnd Hs).
  exists (timestamp s). simpl. split_and!; try done.
  - unfold find. by rewrite Hfind, Hs.
  - unfold deleteSessionByTimestamp, renderSessions. run. rewrite Hfind. simpl.
    destruct set as [[]|e]; simpl; [destruct (decide _)|]; done.
Qed.

(** X21. An index that is negative or past the end makes each of the three
    index entry points return at once: nothing is looked up, asked,
    written or reported. *)
Theorem index_out_of_range_does_nothing
    (p : Popup) (index : Z) (create : nat → reply unit) (answer : bool)
    (set : reply unit) :
  index < 0 ∨ Z.of_nat (length (sessions p)) ≤ index →
  exec (openSession create index) p = p ∧
  exec (deleteSession answer set index) p = p ∧
  exec (openRenameModal index) p = p.
Proof.
  intros Hout. unfold openSession, deleteSession, openRenameModal. run.
  assert ((index <? 0) || (Z.of_nat (length (sessions p)) <=? index) = true)
    as -> by (apply orb_true_iff; lia).
  assert ((0 <=? index) && (index <? Z.of_nat (length (sessions p))) = false)
    as -> by (apply andb_false_iff; lia).
  done.
Qed.

(** X22. With distinct timestamps, [deleteSession(index)] with the prompt
    confirmed removes the session at that index and no other. *)
Theorem deleteSession_removes_that_index
    (p : Popup) (index : Z) (set : reply unit) :
  NoDup (timestamp <$> sessions p) →
  0 ≤ index < Z.of_nat (length (sessions p)) →
  sessions (exec (deleteSession true set index) p)
    = delete (Z.to_nat index) (sessions p).
Proof.
  intros Hnd Hin.
  destruct (lookup_lt_is_Some_2 (sessions p) (Z.to_nat index)) as [s Hs]; [lia|].
  assert (Hfind := list_find_timestamp_at _ _ _ Hnd Hs).
  unfold deleteSession. run.
  assert ((index <? 0) || (Z.of_nat (length (sessions p)) <=? index) = false)
    as -> by (apply orb_false_iff; lia).
  rewrite Hs. unfold deleteSessionByTimestamp, renderSessions. run.
  rewrite Hfind. simpl.
  destruct set as [[]|e]; simpl; [destruct (decide _)|]; done.
Qed.

(** X23. For an instant [now] and a timestamp that are both valid dates,
    what [formatTimestamp] shows depends on the age [now - timestamp] in
    milliseconds: "Just now" under one minute (and for a timestamp in
    the future), whole minutes from 1 to 59 under one hour, whole hours
    from 1 to 23 under one day, whole days from 1 to 6 under one week,
    and the locale date from one week on.  For a timestamp beyond the
    range of a date it shows "Invalid Date". *)
Theorem formatTimestamp_by_age (now ts : Z) :
  Z.abs now ≤ max_time →
  let age := now - ts in
  let shown := formatTimestamp toLocaleDateString now ts in
  (Z.abs ts ≤ max_time →
     (age < 60000 → shown = Js.lit "Just now") ∧
     (60000 ≤ age < 3600000 →
        shown = Num.toString (age / 60000) ++ Js.lit "m ago" ∧
        1 ≤ age / 60000 ≤ 59) ∧
     (3600000 ≤ age < 86400000 →
        shown = Num.toString (age / 3600000) ++ Js.lit "h ago" ∧
        1 ≤ age / 3600000 ≤ 23) ∧
     (86400000 ≤ age < 604800000 →
        shown = Num.toString (age / 86400000) ++ Js.lit "d ago" ∧
        1 ≤ age / 86400000 ≤ 6) ∧
     (604800000 ≤ age → shown = toLocaleDateString ts)) ∧
  (max_time < Z.abs ts → shown = Js.lit "Invalid Date").
Proof.
  intros _. cbv zeta. unfold formatTimestamp, Date_of.
  destruct (Z.leb_spec (Z.abs ts) max_time) as [Hvalid|Hinvalid];
    (split; [|by (intros ?; first [lia | done])]); [|intros ?; lia].
  intros _. set (age := now - ts).
  pose proof (Z.div_mod age 60000 ltac:(lia)) as Hm.
  pose proof (Z.mod_pos_bound age 60000 ltac:(lia)) as Hm'.
  pose proof (Z.div_mod age 3600000 ltac:(lia)) as Hh.
  pose proof (Z.mod_pos_bound age 3600000 ltac:(lia)) as Hh'.
  pose proof (Z.div_mod age 86400000 ltac:(lia)) as Hd.
  pose proof (Z.mod_pos_bound age 86400000 ltac:(lia)) as Hd'.
  split_and!; intros Hage;
    repeat (match goal with
            | |- context [?a <? ?b] => destruct (Z.ltb_spec a b)
            end; try lia);
    try split; try done; lia.
Qed.

End Cards.

(** ** Theme *)

Section ThemeAndWorker.

(** X24. After a toggle the icons tell the theme apart: the sun is shown
    exactly in dark mode and the moon exactly in light mode; a resolved
    write stores the new mode; and the session list, in memory and in
    storage, is not touched. *)
Theorem toggleDarkMode_keeps_icons_and_store_in_step
    (pg : Page) (set : reply unit) :
  let pg' := toggleDarkMode set pg in
  dark (theme pg') = negb (dark (theme pg)) ∧
  sunIconHidden (theme pg') = negb (dark (theme pg')) ∧
  moonIconHidden (theme pg') = dark (theme pg') ∧
  (set = Resolved tt →
     stored_darkMode (storage (world pg')) = Some (dark (theme pg'))) ∧
  (∀ e, set = Rejected e → storage (world pg') = storage (world pg)) ∧
  stored_sessions (storage (world pg')) = stored_sessions (storage (world pg)) ∧
  sessions (world pg') = sessions (world pg).
Proof.
  unfold toggleDarkMode, updateDarkModeIcon, set_darkMode.
  destruct (dark (theme pg)); simpl; split_and!; try done;
    try (by intros ->); by destruct set.
Qed.

(** X25. Toggling twice brings the mode back: the [dark] class is as it
    was, and when the second write resolves the stored mode is the
    original one. *)
Theorem toggleDarkMode_twice_restores_mode
    (pg : Page) (set1 set2 : reply unit) :
  let pg'' := toggleDarkMode set2 (toggleDarkMode set1 pg) in
  dark (theme pg'') = dark (theme pg) ∧
  (set2 = Resolved tt →
     stored_darkMode (storage (world pg'')) = Some (dark (theme pg))).
Proof.
  unfold toggleDarkMode, updateDarkModeIcon, set_darkMode.
  destruct (dark (theme pg)); simpl; split; try done; by intros ->.
Qed.

(** X26. The mode survives closing the popup: after a toggle whose write
    resolved, a page opened afresh (without the [dark] class) over the
    same storage comes out of [initializeDarkMode] in the mode the toggle
    left, with the sun shown if that mode is dark. *)
Theorem darkMode_survives_reopening
    (pg : Page) (fresh_theme : Theme) :
  dark fresh_theme = false →
  let pg' := toggleDarkMode (Resolved tt) pg in
  let reopened :=
    initializeDarkMode (Resolved tt)
      {| theme := fresh_theme; world := opened (storage (world pg')) |} in
  dark (theme reopened) = dark (theme pg') ∧
  (dark (theme pg') = true →
     sunIconHidden (theme reopened) = false ∧
     moonIconHidden (theme reopened) = true) ∧
  (dark (theme pg') = false → theme reopened = fresh_theme).
Proof.
  intros Hfresh.
  unfold toggleDarkMode, initializeDarkMode, updateDarkModeIcon, set_darkMode.
  destruct (dark (theme pg)); simpl; split_and!; done.
Qed.

(** ** The service worker *)

(** X27. The install handler never replaces a stored list: whenever the
    [sessions] key holds a list, even the empty one, the storage comes
    out of [onInstalled] as it went in, for every reason and whatever
    the host answers. *)
Theorem onInstalled_never_overwrites_sessions
    (reason version : Js.str) (get set : reply unit) (w : Worker)
    (l : list Session) :
  stored_sessions (disk w) = Some l →
  disk (onInstalled reason version get set w) = disk w.
Proof.
  intros Hl. unfold onInstalled.
  repeat case_match; simpl in *; try done; congruence.
Qed.

(** X28. On a first install over a store with no [sessions] key, when the
    read and the write resolve, the key holds the empty list afterwards
    and the [darkMode] key is as before; for any reason other than
    install the storage is not touched. *)
Theorem onInstalled_initialises_missing_key
    (reason version : Js.str) (get set : reply unit) (w : Worker) :
  let w' := onInstalled reason version get set w in
  (reason = Js.lit "install" → stored_sessions (disk w) = None →
   get = Resolved tt → set = Resolved tt →
   stored_sessions (disk w') = Some [] ∧
   stored_darkMode (disk w') = stored_darkMode (disk w)) ∧
  (reason ≠ Js.lit "install" → disk w' = disk w).
Proof.
  unfold onInstalled. split.
  - intros -> Hnone -> ->. rewrite decide_True by done. simpl.
    by rewrite Hnone.
  - intros Hne. rewrite decide_False by done. by destruct (decide _).
Qed.

(** X29. The popup loads the same list whether or not the worker ran: the
    install handler only ever turns a missing key into the empty list,
    which is how [loadSessions] reads a missing key anyway. *)
Theorem onInstalled_is_invisible_to_loadSessions
    (reason version : Js.str) (get set : reply unit) (w : Worker) :
  sessions (exec (loadSessions (Resolved tt))
              (opened (disk (onInstalled reason version get set w)))) =
  sessions (exec (loadSessions (Resolved tt)) (opened (disk w))).
Proof.
  assert (Hread : ∀ store,
    sessions (exec (loadSessions (Resolved tt)) (opened store))
    = default [] (stored_sessions store)).
  { intros store. unfold loadSessions, renderSessions. run.
    by destruct (decide _). }
  rewrite !Hread. unfold onInstalled.
  destruct (stored_sessions (disk w)) as [l|] eqn:Hstored;
    repeat case_match; simpl in *; rewrite ?Hstored; first [done | congruence].
Qed.

End ThemeAndWorker.

(** * More scenarios, run *)

Section MoreScenarios.

Import Sample2.

Local Ltac evaluated := apply (bool_decide_unpack _); vm_compute; exact I.

(** The sample timestamp through a data attribute. *)
Lemma parseInt_toString_witness :
  - 2 ^ 53 < 1700000000000 < 2 ^ 53 ∧
  Num.parseInt (Num.toString 1700000000000) = Some 1700000000000.
Proof.
  assert (Hrange : - 2 ^ 53 < 1700000000000 < 2 ^ 53) by evaluated.
  split; [exact Hrange|]. exact (parseInt_toString 1700000000000 Hrange).
Defined.

(** What [parseInt] makes of other strings. *)
Example parseInt_edge_cases :
  Num.parseInt (Js.lit "  42px") = Some 42 ∧
  Num.parseInt (Js.lit "-7") = Some (-7) ∧
  Num.parseInt (Js.lit "0x1F") = Some 31 ∧
  Num.parseInt (Js.lit "") = None ∧
  Num.parseInt (Js.lit "undefined") = None.
Proof. by vm_compute. Qed.

Lemma runs_keep_sessions_well_formed_witness :
  Forall well_formed (sessions loaded) ∧
  Forall well_formed (sessions (exec (perform_all locale session_run) loaded)).
Proof.
  assert (Hwf : Forall well_formed (sessions loaded)).
  { vm_compute. repeat constructor; discriminate. }
  split; [exact Hwf|]. exact (runs_keep_sessions_well_formed locale session_run loaded Hwf).
Defined.

Lemma runs_keep_timestamps_distinct_witness :
  NoDup ((timestamp <$> sessions loaded) ++ (session_run ≫= save_clock)) ∧
  NoDup (timestamp <$> sessions (exec (perform_all locale session_run) loaded)).
Proof.
  assert (Hnd : NoDup ((timestamp <$> sessions loaded) ++ (session_run ≫= save_clock)))
    by evaluated.
  split; [exact Hnd|]. exact (runs_keep_timestamps_distinct locale session_run loaded Hnd).
Defined.


(** The sample run, evaluated: the list it leaves, newest last. *)
Example session_run_result :
  let p := exec (perform_all locale session_run) loaded in
  (λ s, (timestamp s, name s)) <$> sessions p =
    [(200, Js.lit "second"); (300, Js.lit "three"); (400, Js.lit "work")] ∧
  stored_sessions (storage p) = Some (sessions p) ∧
  card_timestamp <$> cards p = [400; 300; 200].
Proof. by vm_compute. Qed.

Lemma save_query_rejected_changes_nothing_witness :
  tabs_query query_rejected = Rejected (Js.lit "no window") ∧
  sessions (exec (saveCurrentTabs locale query_rejected) loaded) = sessions loaded.
Proof.
  split; [reflexivity|].
  by rewrite (save_query_rejected_changes_nothing locale loaded query_rejected
                (Js.lit "no window") eq_refl).
Defined.

Lemma save_write_rejected_keeps_session_in_memory_witness :
  storage_set write_rejected = Rejected (Js.lit "quota") ∧
  length (sessions (exec (saveCurrentTabs locale write_rejected) loaded)) = 4%nat ∧
  storage (exec (saveCurrentTabs locale write_rejected) loaded) = storage loaded.
Proof.
  split; [reflexivity|].
  destruct (save_write_rejected_keeps_session_in_memory locale loaded
              write_rejected [Sample.tabA; Sample.tabB] (Js.lit "quota")
              eq_refl eq_refl) as (Hmem & Hdisk & _).
  split; [by rewrite Hmem | exact Hdisk].
Defined.

Lemma failed_save_is_stored_by_next_save_witness :
  storage_set write_rejected = Rejected (Js.lit "quota") ∧
  storage_set (host_at 500) = Resolved tt ∧
  (length <$> stored_sessions (storage
     (exec (saveCurrentTabs locale (host_at 500))
        (exec (saveCurrentTabs locale write_rejected) loaded)))) = Some 5%nat.
Proof.
  split_and!; [reflexivity..|].
  destruct (failed_save_is_stored_by_next_save locale loaded write_rejected
              (host_at 500) [Sample.tabA; Sample.tabB] [Sample.tabA; Sample.tabB]
              (Js.lit "quota") eq_refl eq_refl eq_refl eq_refl) as (_ & _ & Hdisk).
  by rewrite Hdisk.
Defined.

Lemma delete_write_rejected_is_undone_by_reopening_witness :
  (200 ∈ timestamp <$> sessions loaded) ∧ storage_in_sync loaded ∧
  sessions (exec (loadSessions (Resolved tt))
              (opened (storage (exec (deleteSessionByTimestamp true
                                        (Rejected (Js.lit "quota")) 200) loaded))))
    = sessions loaded.
Proof.
  assert (Hin : 200 ∈ timestamp <$> sessions loaded) by evaluated.
  assert (Hsync : storage_in_sync loaded) by reflexivity.
  split_and!; [exact Hin | exact Hsync |].
  apply (delete_write_rejected_is_undone_by_reopening loaded 200 (Js.lit "quota")
           Hin Hsync).
Defined.

Lemma open_absent_requests_nothing_witness :
  (999 ∉ timestamp <$> sessions loaded) ∧
  requests (trace (exec (openSessionByTimestamp (λ _, Resolved tt) 999) loaded)) = [].
Proof.
  assert (Habs : 999 ∉ timestamp <$> sessions loaded) by evaluated.
  split; [exact Habs|].
  by rewrite (open_absent_requests_nothing loaded 999 (λ _, Resolved tt) Habs).
Defined.

Lemma open_stops_at_first_rejection_witness :
  find 200 (sessions loaded) = Some (Sample.session_at 200 "two") ∧
  second_rejected 1 = Rejected (Js.lit "denied") ∧
  ∃ new,
    trace (exec (openSessionByTimestamp second_rejected 200) loaded)
      = trace loaded ++ new ∧
    requests new = [(Js.lit "https://a.test", false);
                    (Js.lit "https://b.test", false)].
Proof.
  split_and!; [reflexivity..|].
  destruct (open_stops_at_first_rejection loaded 200 (Sample.session_at 200 "two")
              second_rejected 1 Sample.recB (Js.lit "denied"))
    as (new & Htrace & _ & Hreq); [reflexivity | reflexivity | | reflexivity |].
  - intros j Hj. assert (j = 0%nat) as -> by lia. reflexivity.
  - exists new. split; [exact Htrace | exact Hreq].
Defined.

Lemma save_then_open_requests_the_saved_tabs_witness :
  (400 ∉ timestamp <$> sessions loaded) ∧
  ∃ new,
    trace (exec (openSessionByTimestamp (λ _, Resolved tt) 400)
             (exec (saveCurrentTabs locale (host_at 400)) loaded))
      = trace (exec (saveCurrentTabs locale (host_at 400)) loaded) ++ new ∧
    requests new = [(Js.lit "https://a.test", false);
                    (Js.lit "https://b.test", false)].
Proof.
  assert (Hnew : 400 ∉ timestamp <$> sessions loaded) by evaluated.
  split; [exact Hnew|].
  apply (save_then_open_requests_the_saved_tabs locale loaded (host_at 400)
           [Sample.tabA; Sample.tabB] (λ _, Resolved tt) eq_refl Hnew).
  reflexivity.
Defined.

Lemma save_then_delete_restores_the_list_witness :
  (400 ∉ timestamp <$> sessions loaded) ∧
  sessions (exec (deleteSessionByTimestamp true (Resolved tt) 400)
              (exec (saveCurrentTabs locale (host_at 400)) loaded))
    = sessions loaded.
Proof.
  assert (Hnew : 400 ∉ timestamp <$> sessions loaded) by evaluated.
  split; [exact Hnew|].
  apply (save_then_delete_restores_the_list locale loaded (host_at 400)
           [Sample.tabA; Sample.tabB] eq_refl Hnew).
Defined.

Lemma card_index_is_storage_position_witness :
  card_calls (sessions loaded) !! 0%nat = Some (Sample.session_at 300 "three", 2) ∧
  sessions loaded !! Z.to_nat 2 = Some (Sample.session_at 300 "three").
Proof.
  split; [reflexivity|].
  apply (card_index_is_storage_position (sessions loaded) 0
           (Sample.session_at 300 "three") 2 eq_refl).
Defined.

Lemma card_buttons_act_on_their_session_witness :
  NoDup (timestamp <$> sessions loaded) ∧
  Forall (λ s, - 2 ^ 53 < timestamp s < 2 ^ 53) (sessions loaded) ∧
  ∃ el ts,
    rendered_cards locale_date 1000 (sessions loaded) !! 0%nat = Some el ∧
    Num.parseInt (el_delete_dataset el) = Some ts ∧
    sessions (exec (deleteSessionByTimestamp true (Resolved tt) ts) loaded)
      = delete 2%nat (sessions loaded).
Proof.
  assert (Hnd : NoDup (timestamp <$> sessions loaded)) by evaluated.
  assert (Hrange : Forall (λ s, - 2 ^ 53 < timestamp s < 2 ^ 53) (sessions loaded))
    by evaluated.
  split_and!; [exact Hnd | exact Hrange |].
  destruct (rendered_cards locale_date 1000 (sessions loaded) !! 0%nat)
    as [el|] eqn:Hel; [|discriminate Hel].
  destruct (card_buttons_act_on_their_session locale_date 1000 loaded 0 el
              (Resolved tt) Hnd Hrange Hel)
    as (ts & _ & _ & _ & Hparse & _ & Hdel).
  exists el, ts. split_and!; [reflexivity | exact Hparse | exact Hdel].
Defined.

Lemma index_out_of_range_does_nothing_witness :
  (-1 < 0 ∨ Z.of_nat (length (sessions loaded)) ≤ -1) ∧
  exec (deleteSession true (Resolved tt) (-1)) loaded = loaded.
Proof.
  assert (Hout : -1 < 0 ∨ Z.of_nat (length (sessions loaded)) ≤ -1) by (left; lia).
  split; [exact Hout|].
  apply (index_out_of_range_does_nothing loaded (-1) (λ _, Resolved tt) true
           (Resolved tt) Hout).
Defined.

Lemma deleteSession_removes_that_index_witness :
  NoDup (timestamp <$> sessions loaded) ∧
  0 ≤ 1 < Z.of_nat (length (sessions loaded)) ∧
  sessions (exec (deleteSession true (Resolved tt) 1) loaded)
    = delete 1%nat (sessions loaded).
Proof.
  assert (Hnd : NoDup (timestamp <$> sessions loaded)) by evaluated.
  assert (Hin : 0 ≤ 1 < Z.of_nat (length (sessions loaded))) by evaluated.
  split; [exact Hnd|]. split; [exact Hin|].
  exact (deleteSession_removes_that_index loaded 1 (Resolved tt) Hnd Hin).
Defined.

(** Five minutes and a bit. *)
Lemma formatTimestamp_by_age_witness :
  Z.abs 1000000 ≤ max_time ∧
  formatTimestamp locale_date 1000000 654321 = Js.lit "5m ago".
Proof.
  assert (Hnow : Z.abs 1000000 ≤ max_time) by evaluated.
  split; [exact Hnow|].
  destruct (formatTimestamp_by_age locale_date 1000000 654321 Hnow)
    as (Hvalid & _).
  destruct Hvalid as (_ & Hminutes & _); [evaluated|].
  destruct Hminutes as [-> _]; [lia | reflexivity].
Defined.

(** The boundaries of [formatTimestamp], evaluated, and a timestamp no
    date can hold. *)
Example formatTimestamp_boundaries :
  formatTimestamp locale_date 1000 2000 = Js.lit "Just now" ∧
  formatTimestamp locale_date 59999 0 = Js.lit "Just now" ∧
  formatTimestamp locale_date 60000 0 = Js.lit "1m ago" ∧
  formatTimestamp locale_date 3599999 0 = Js.lit "59m ago" ∧
  formatTimestamp locale_date 3600000 0 = Js.lit "1h ago" ∧
  formatTimestamp locale_date 86400000 0 = Js.lit "1d ago" ∧
  formatTimestamp locale_date 604799999 0 = Js.lit "6d ago" ∧
  formatTimestamp locale_date 604800000 0 = locale_date 0 ∧
  formatTimestamp locale_date 1000 8640000000000000 = Js.lit "Just now" ∧
  formatTimestamp locale_date 1000 9000000000000000 = Js.lit "Invalid Date" ∧
  formatTimestamp locale_date 1000 (-9000000000000000) = Js.lit "Invalid Date".
Proof. by vm_compute. Qed.

Lemma toggleDarkMode_keeps_icons_and_store_in_step_witness :
  stored_darkMode (storage (world (toggleDarkMode (Resolved tt) page))) = Some true ∧
  sunIconHidden (theme (toggleDarkMode (Resolved tt) page)) = false.
Proof.
  destruct (toggleDarkMode_keeps_icons_and_store_in_step page (Resolved tt))
    as (Hdark & Hsun & _ & Hstored & _).
  split; [by rewrite (Hstored eq_refl), Hdark | by rewrite Hsun, Hdark].
Defined.

Lemma toggleDarkMode_twice_restores_mode_witness :
  stored_darkMode
    (storage (world (toggleDarkMode (Resolved tt)
                       (toggleDarkMode (Resolved tt) page)))) = Some false.
Proof.
  destruct (toggleDarkMode_twice_restores_mode page (Resolved tt) (Resolved tt))
    as (_ & Hstored).
  exact (Hstored eq_refl).
Defined.

Lemma darkMode_survives_reopening_witness :
  dark light = false ∧
  dark (theme
    (initializeDarkMode (Resolved tt)
       {| theme := light;
          world := opened (storage (world (toggleDarkMode (Resolved tt) page))) |}))
  = true.
Proof.
  split; [reflexivity|].
  destruct (darkMode_survives_reopening page light eq_refl) as (Hdark & _).
  by rewrite Hdark.
Defined.

Lemma onInstalled_never_overwrites_sessions_witness :
  is_Some (stored_sessions (disk reinstall)) ∧
  disk (onInstalled (Js.lit "install") (Js.lit "1.0.0") (Resolved tt)
          (Resolved tt) reinstall) = disk reinstall.
Proof.
  split; [by eexists|].
  by apply (onInstalled_never_overwrites_sessions (Js.lit "install")
              (Js.lit "1.0.0") (Resolved tt) (Resolved tt) reinstall
              [Sample.session_at 100 "one"; Sample.session_at 200 "two";
               Sample.session_at 300 "three"]).
Defined.

Lemma onInstalled_initialises_missing_key_witness :
  stored_sessions (disk first_install) = None ∧
  stored_sessions
    (disk (onInstalled (Js.lit "install") (Js.lit "1.0.0") (Resolved tt)
             (Resolved tt) first_install)) = Some [].
Proof.
  split; [reflexivity|].
  destruct (onInstalled_initialises_missing_key (Js.lit "install")
              (Js.lit "1.0.0") (Resolved tt) (Resolved tt) first_install)
    as (Hinstall & _).
  by destruct (Hinstall eq_refl eq_refl eq_refl eq_refl).
Defined.

(** The worker's log on install and on update, evaluated. The line
    "Initialized..." is logged even when the write it announces rejects. *)
Example onInstalled_logs :
  logged (onInstalled (Js.lit "install") (Js.lit "1.0.0") (Resolved tt)
            (Rejected (Js.lit "quota")) first_install) =
    [[Js.lit "TabSaver installed successfully!"];
     [Js.lit "Initialized empty sessions array in storage"]] ∧
  disk (onInstalled (Js.lit "install") (Js.lit "1.0.0") (Resolved tt)
          (Rejected (Js.lit "quota")) first_install) = empty_storage ∧
  logged (onInstalled (Js.lit "update") (Js.lit "1.0.1") (Resolved tt)
            (Resolved tt) reinstall) =
    [[Js.lit "TabSaver updated to version"; Js.lit "1.0.1"]].
Proof. by vm_compute. Qed.

(** C4, at the input where the code falls short. On the store that two
    saves in one millisecond leave, renaming the session "second" by its
    timestamp renames "first": the modal opens on the name of "first",
    and the confirmation assigns the new name to "first" while "second"
    keeps its own.  What does hold there is the frame: no [tabs],
    [timestamp] or [tabCount] changes. *)
Theorem rename_by_shared_timestamp_renames_another_session :
  let p := collided in
  let opened_modal := exec (openRenameModalByTimestamp 1700000000000) p in
  let p' := exec (confirmRename (Resolved tt)) (renaming_second "renamed") in
  name <$> sessions p = [Js.lit "first"; Js.lit "second"] ∧
  timestamp <$> sessions p !! 1%nat = Some 1700000000000 ∧
  currentRenameTimestamp opened_modal = Some 1700000000000 ∧
  renameInput opened_modal = Js.lit "first" ∧
  name <$> sessions p' = [Js.lit "renamed"; Js.lit "second"] ∧
  core <$> sessions p' = core <$> sessions p ∧
  stored_sessions (storage p') = Some (sessions p').
Proof. by vm_compute. Qed.

End MoreScenarios.
